(** * OOO leave tracker: the canister's user directory and leave ledger

    A shallow embedding of the canister (index.ts, utils.ts, types.ts):
    the two stable maps are threaded as an explicit state, every
    exported function returns an Azle [Result] together with the state
    it leaves behind, and the ambient values a call reads ([ic.caller()],
    [ic.time()], [new Date()], [uuidv4()]) are gathered in an
    environment record.

    Numbers.  A JavaScript [number] is modelled as an integer [Z]:
    timestamps are whole milliseconds since the epoch and the balance
    only ever moves from 21 by results of [Math.round].  The one
    division of the program, in [findDiffInDays], is carried out in the
    rationals [Q] before it is rounded.  This is what float64 computes
    for the time values a [Date] can hold; inputs that are no whole
    numbers (NaN, infinities, fractions) are outside this model, and the
    functions that move a balance are given a second time further down,
    on numbers that may be NaN.  Where a map is listed, the order of the
    list is the one of [gmap], not the key order of the stable map. *)

From Stdlib Require Import ZArith QArith Qround Qabs Lia.
From stdpp Require Import gmap strings list fin_maps.

Open Scope Z_scope.

(** ** JavaScript primitives used by the program *)

(** [Math.round]: the nearest integer, halves going up. *)
Definition Math_round (q : Q) : Z := Qfloor (Qplus q (Qmake 1 2)).

(** [Math.abs] *)
Definition Math_abs (q : Q) : Q := Qabs q.

(** ** utils.ts *)

(** hours * minutes * seconds * milliseconds *)
Definition oneDay : Z := 24 * 60 * 60 * 1000.

Definition findDiffInDays (startDate endDate : Z) : Z :=
  let diffDays :=
    Math_round (Math_abs (Qdiv (inject_Z (endDate - startDate)) (inject_Z oneDay))) in
  if diffDays =? 0 then 1 else diffDays.

(** [String(email).toLowerCase()], on the ASCII letters. *)
Definition lower_ascii (c : Ascii.ascii) : Ascii.ascii :=
  let n := Ascii.nat_of_ascii c in
  if ((65 <=? n)%nat && (n <=? 90)%nat)%bool then Ascii.ascii_of_nat (n + 32) else c.

Fixpoint toLowerCase (s : string) : string :=
  match s with
  | EmptyString => EmptyString
  | String c s' => String (lower_ascii c) (toLowerCase s')
  end.

(** Truthiness of a string and of a number: [""] and [0] are falsy. *)
Definition truthy_string (s : string) : bool := negb (String.eqb s "").
Definition truthy_number (z : Z) : bool := negb (z =? 0).

(** Comparison of two year numbers that may be [NaN] (here [None], the
    year of an invalid [Date]): any comparison with [NaN] is false. *)
Definition number_gt (a b : option Z) : bool :=
  match a, b with
  | Some x, Some y => y <? x
  | _, _ => false
  end.

Definition number_lt (a b : option Z) : bool := number_gt b a.

(** [Array.prototype.forEach]: the callback runs on every element and
    whatever it returns is dropped. *)
Definition forEach {A B : Type} (l : list A) (callback : A → B) : unit :=
  fold_left (fun _ x => let _ := callback x in tt) l tt.

(** ** Azle's [Result] *)

Inductive Result (T E : Type) : Type :=
| Ok (v : T)
| Err (e : E).

Arguments Ok {T E} v.
Arguments Err {T E} e.

Definition is_Ok {T E : Type} (r : Result T E) : bool :=
  match r with Ok _ => true | Err _ => false end.

(** ** types.ts *)

Abbreviation Principal := string (only parsing).

Record User : Type := mkUser {
  user_id : Principal;
  user_name : string;
  user_email : string;
  user_isActive : bool;
  user_isAdmin : bool;
  user_availableDays : Z;
  user_createdAt : N;
  user_updatedAt : option N
}.

Record UserPayload : Type := mkUserPayload {
  up_id : option Principal;
  up_name : option string;
  up_email : option string;
  up_isActive : option bool;
  up_isAdmin : option bool;
  up_availableDays : option Z
}.

Record PromoteUserPayload : Type := mkPromoteUserPayload {
  pp_id : Principal;
  pp_isAdmin : option bool;
  pp_isActive : option bool
}.

Record CreateOrEditUserPayload : Type := mkCreateOrEditUserPayload {
  cp_name : string;
  cp_email : string
}.

Record Leave : Type := mkLeave {
  leave_id : string;
  leave_userId : Principal;
  leave_startDate : Z;
  leave_endDate : Z;
  leave_days : Z;
  leave_status : string;
  leave_createdAt : N;
  leave_updatedAt : option N
}.

Record LeavePayload : Type := mkLeavePayload {
  lp_startDate : Z;
  lp_endDate : Z
}.

(** Field assignments on a record ([updatedUser.isActive = ...], or a
    spread followed by fields). *)
Definition set_user_updatedAt (t : option N) (u : User) : User :=
  mkUser (user_id u) (user_name u) (user_email u) (user_isActive u)
         (user_isAdmin u) (user_availableDays u) (user_createdAt u) t.

Definition set_user_availableDays (d : Z) (u : User) : User :=
  mkUser (user_id u) (user_name u) (user_email u) (user_isActive u)
         (user_isAdmin u) d (user_createdAt u) (user_updatedAt u).

Definition set_user_isActive (b : bool) (u : User) : User :=
  mkUser (user_id u) (user_name u) (user_email u) b
         (user_isAdmin u) (user_availableDays u) (user_createdAt u) (user_updatedAt u).

Definition set_user_isAdmin (b : bool) (u : User) : User :=
  mkUser (user_id u) (user_name u) (user_email u) (user_isActive u)
         b (user_availableDays u) (user_createdAt u) (user_updatedAt u).

Definition set_user_name (s : string) (u : User) : User :=
  mkUser (user_id u) s (user_email u) (user_isActive u)
         (user_isAdmin u) (user_availableDays u) (user_createdAt u) (user_updatedAt u).

Definition set_user_email (s : string) (u : User) : User :=
  mkUser (user_id u) (user_name u) s (user_isActive u)
         (user_isAdmin u) (user_availableDays u) (user_createdAt u) (user_updatedAt u).

(** ** constants.ts *)

(** Modelled from the spec: constants.ts is not among the sources; the
    default balance is 21 days. *)
Definition DEFAULT_AVAILABLE_DAYS : Z := 21.

(** Modelled from the spec: constants.ts is not among the sources; the
    three recognized statuses are PENDING, APPROVED and REJECTED. *)
Module LeaveStatuses.
Definition PENDING : string := "PENDING".
Definition APPROVED : string := "APPROVED".
Definition REJECTED : string := "REJECTED".
(** [Object.values(LeaveStatuses)] *)
Definition values : list string := [PENDING; APPROVED; REJECTED].
End LeaveStatuses.

(** ** The canister state and the environment of a call *)

(** [userStorage] and [leaveStorage], the two stable maps. *)
Record Storage : Type := mkStorage {
  userStorage : gmap Principal User;
  leaveStorage : gmap string Leave
}.

(** What a call reads from outside: [ic.caller()], [ic.time()], the
    clock behind [new Date()] and the identifier [uuidv4()] draws. *)
Record Env : Type := mkEnv {
  caller : Principal;
  time : N;
  now : Z;
  uuid : string
}.

(** [StableBTreeMap.values()] and [StableBTreeMap.isEmpty()] *)
Definition values {K V : Type} `{Countable K} (m : gmap K V) : list V :=
  (map_to_list m).*2.

Definition isEmpty {K V : Type} `{Countable K} (m : gmap K V) : bool :=
  (size m =? 0)%nat.

Inductive Operation : Type := ADD | SUBTRACT.

(** ** The platform under the canister *)

(** The library and platform functions the canister calls, left
    abstract: everything proved below holds whatever they compute.
    - [email_regex_test] is [regex.test] for the pattern of [isValidEmail];
    - [isValidUUID] is [validate] of the uuid package;
    - [getFullYear t] is [new Date(t).getFullYear()], [None] standing
      for the [NaN] of an invalid date;
    - [principal_strict_eq] is [===] between two [Principal] objects. *)
Class Platform : Type := {
  email_regex_test : string → bool;
  isValidUUID : string → bool;
  getFullYear : Z → option Z;
  principal_strict_eq : Principal → Principal → bool
}.

(** ** index.ts *)

Section Canister.

Context `{platform : Platform}.

Definition isValidEmail (email : string) : bool :=
  email_regex_test (toLowerCase email).

Local Open Scope string_scope.

(** *** Helpers *)

Definition isAdmin (st : Storage) (env : Env) : bool :=
  match userStorage st !! caller env with
  | Some user => user_isAdmin user
  | None => false
  end.

Definition isActive (st : Storage) (env : Env) : bool :=
  match userStorage st !! caller env with
  | Some user => user_isActive user
  | None => false
  end.

(** [userStorage.values().find((user) => user.email === email)],
    as the truth value the callers test. *)
Definition isUserExists (st : Storage) (email : string) : bool :=
  existsb (fun user => String.eqb (user_email user) email)
          (values (userStorage st)).

Definition updateUserParams (st : Storage) (env : Env) (payload : UserPayload)
  : Result User string * Storage :=
  match up_id payload with
  | None => (Err "ID cannot be empty! Please enter valid data.", st)
  | Some pid =>
    match userStorage st !! pid with
    | Some user =>
      let updatedUser := set_user_updatedAt (Some (time env)) user in
      let updatedUser :=
        match up_availableDays payload with
        | Some d => if truthy_number d
                    then set_user_availableDays d updatedUser else updatedUser
        | None => updatedUser
        end in
      let updatedUser :=
        match up_isActive payload with
        | Some true => set_user_isActive true updatedUser
        | _ => updatedUser
        end in
      let updatedUser :=
        match up_isAdmin payload with
        | Some true => set_user_isAdmin true updatedUser
        | _ => updatedUser
        end in
      let updatedUser :=
        match up_name payload with
        | Some n => if truthy_string n
                    then set_user_name n updatedUser else updatedUser
        | None => updatedUser
        end in
      let store (u : User) :=
        (Ok u, mkStorage (<[user_id user := u]> (userStorage st)) (leaveStorage st)) in
      match up_email payload with
      | Some e =>
        if truthy_string e then
          if negb (isValidEmail e) then
            (Err "Incorrect email! Please enter valid email.", st)
          else if isUserExists st e then
            (Err "User with given email address exists already!", st)
          else store (set_user_email e updatedUser)
        else store updatedUser
      | None => store updatedUser
      end
    | None =>
      (Err ("Could not update a user with the given id=" +:+ pid
            +:+ ". User not found!"), st)
    end
  end.

Definition updateUsersAvailableDays (st : Storage) (env : Env)
    (userId : Principal) (leaveDays : Z) (operation : Operation)
  : Result User string * Storage :=
  let failed :=
    (Err ("Could not update status of the leave with the given id=" +:+ userId
          +:+ ". Something went wrong!"), st) in
  match userStorage st !! userId with
  | None => failed
  | Some user =>
    if negb (truthy_number (user_availableDays user)) then failed
    else
      let availableDays :=
        match operation with
        | ADD => user_availableDays user + leaveDays
        | SUBTRACT => user_availableDays user - leaveDays
        end in
      updateUserParams st env
        (mkUserPayload (Some userId) None None None None (Some availableDays))
  end.

(** *** User management *)

Definition getUser (st : Storage) (id : Principal) : Result User string :=
  match userStorage st !! id with
  | Some userData => Ok userData
  | None => Err ("User with given id=" +:+ id +:+ " not found!")
  end.

Definition getUsers (st : Storage) (env : Env) : Result (list User) string :=
  if negb (isAdmin st env) then
    Err "You do not have the permission for this operation!"
  else Ok (values (userStorage st)).

Definition createUser (st : Storage) (env : Env) (payload : CreateOrEditUserPayload)
  : Result User string * Storage :=
  if (negb (truthy_string (cp_name payload))
      || negb (truthy_string (cp_email payload)))%bool then
    (Err "Name and Email data are required! Please enter valid data.", st)
  else if negb (isValidEmail (cp_email payload)) then
    (Err "Incorrect email! Please enter valid email.", st)
  else if isUserExists st (cp_email payload) then
    (Err "User with given email address exists already!", st)
  else
    let user :=
      mkUser (caller env) (cp_name payload) (cp_email payload)
             (isEmpty (userStorage st)) (isEmpty (userStorage st))
             DEFAULT_AVAILABLE_DAYS (time env) (Some (time env)) in
    (Ok user, mkStorage (<[user_id user := user]> (userStorage st)) (leaveStorage st)).

Definition promoteUser (st : Storage) (env : Env) (payload : PromoteUserPayload)
  : Result User string * Storage :=
  if negb (isAdmin st env) then
    (Err "You do not have the permission for this operation!", st)
  else
    (* [userStorage.get(payload.id).None], read as "no such user"; were
       the test to let an unknown id through, [updateUserParams] would
       answer the same message from the same state *)
    match userStorage st !! pp_id payload with
    | None =>
      (Err ("Could not update a user with the given id=" +:+ pp_id payload
            +:+ ". User not found!"), st)
    | Some _ =>
      if principal_strict_eq (pp_id payload) (caller env) then
        (Err "You can't edit yourself!", st)
      else
        let payload_isActive :=
          match pp_isAdmin payload with
          | Some true => Some true
          | _ => pp_isActive payload
          end in
        let payload_isAdmin :=
          match payload_isActive with
          | Some false => Some false
          | _ => pp_isAdmin payload
          end in
        updateUserParams st env
          (mkUserPayload (Some (pp_id payload)) None None
                         payload_isActive payload_isAdmin None)
    end.

Definition updateUser (st : Storage) (env : Env) (payload : CreateOrEditUserPayload)
  : Result User string * Storage :=
  if (negb (truthy_string (cp_name payload))
      && negb (truthy_string (cp_email payload)))%bool then
    (Err "Name and Email cannot be empty! Please enter valid data.", st)
  else
    updateUserParams st env
      (mkUserPayload (Some (caller env)) (Some (cp_name payload))
                     (Some (cp_email payload)) None None None).

(** *** Leave management *)

Definition not_activated : string :=
  "Your account has not been activated yet! Please contact support for account confirmation.".

Definition getMyLeaveRequests (st : Storage) (env : Env) : Result (list Leave) string :=
  if negb (isActive st env) then Err not_activated
  else
    Ok (List.filter (fun x => String.eqb (leave_userId x) (caller env))
                    (values (leaveStorage st))).

Definition getMyLeaveRequestsByStatus (st : Storage) (env : Env) (status : string)
  : Result (list Leave) string :=
  if negb (isActive st env) then Err not_activated
  else if (negb (truthy_string status)
           || (truthy_string status
               && negb (existsb (String.eqb status) LeaveStatuses.values)))%bool then
    Err "Please enter valid Status! Statuses are - PENDING, APPROVED and REJECTED"
  else
    Ok (List.filter (fun x => String.eqb (leave_userId x) (caller env))
                    (values (leaveStorage st))).

(** The condition tested on every leave of the caller inside the
    [forEach] of [requestLeave]. *)
Definition overlaps (currentLeave : Leave) (startDate endDate : Z) : bool :=
  ((leave_startDate currentLeave <=? startDate)%Z
     && (startDate <=? leave_endDate currentLeave)%Z
   || (leave_startDate currentLeave <=? endDate)%Z
        && (endDate <=? leave_endDate currentLeave)%Z
   || (leave_startDate currentLeave >=? startDate)%Z
        && (endDate >=? leave_endDate currentLeave)%Z)%bool.

Definition requestLeave (st : Storage) (env : Env) (payload : LeavePayload)
  : Result Leave string * Storage :=
  let userId := caller env in
  match userStorage st !! userId with
  | None => (Err "Could not find the User with the given ID!", st)
  | Some user =>
    if negb (isActive st env) then (Err not_activated, st)
    else
      let startDate := lp_startDate payload in
      let endDate := lp_endDate payload in
      if (startDate >=? endDate)%Z then
        (Err "Start date must be before end date!", st)
      else
        let currentYear := getFullYear (now env) in
        let startYear := getFullYear startDate in
        let endYear := getFullYear endDate in
        let diffDays := findDiffInDays (lp_startDate payload) (lp_endDate payload) in
        if (diffDays =? 0)%Z then (Err "Leave should be atleast one day!", st)
        else if (user_availableDays user <? diffDays)%Z then
          (Err "You are exceeding your available days for leave!", st)
        else if (number_gt startYear currentYear
                 || number_gt endYear currentYear
                 || number_lt startYear currentYear
                 || number_lt endYear currentYear)%bool then
          (Err "Leave period should be in the current calendar year!", st)
        else
          let leaves :=
            List.filter (fun leave => principal_strict_eq (leave_userId leave) userId)
                        (values (leaveStorage st)) in
          (* the callback's [return] leaves the callback, not [requestLeave] *)
          let _ :=
            if (0 <? length leaves)%nat then
              forEach leaves (fun currentLeave =>
                if overlaps currentLeave startDate endDate then
                  Some (@Err Leave string
                          "The chosen leave period overlaps with an existing leave!")
                else None)
            else tt in
          let leave :=
            mkLeave (uuid env) userId (lp_startDate payload) (lp_endDate payload)
                    diffDays LeaveStatuses.PENDING (time env) None in
          let st1 :=
            mkStorage (userStorage st) (<[leave_id leave := leave]> (leaveStorage st)) in
          let st2 :=
            snd (updateUsersAvailableDays st1 env (leave_userId leave)
                                          (leave_days leave) SUBTRACT) in
          (Ok leave, st2)
  end.

Definition updateLeave (st : Storage) (env : Env) (id : string) (payload : LeavePayload)
  : Result Leave string * Storage :=
  if negb (isValidUUID id) then (Err "Please enter valid Leave ID!", st)
  else
    match leaveStorage st !! id with
    | Some leave =>
      if negb (principal_strict_eq (leave_userId leave) (caller env)) then
        (Err "You do not have the permission for this operation!", st)
      else
        let diffDays := findDiffInDays (lp_startDate payload) (lp_endDate payload) in
        if (diffDays <=? 0)%Z then (Err "Leave should be atleast one day!", st)
        else
          let updatedLeave :=
            mkLeave (leave_id leave) (leave_userId leave)
                    (lp_startDate payload) (lp_endDate payload)
                    diffDays (leave_status leave) (leave_createdAt leave)
                    (Some (time env)) in
          (Ok updatedLeave,
           mkStorage (userStorage st)
                     (<[leave_id leave := updatedLeave]> (leaveStorage st)))
    | None =>
      (Err ("Could not update leave with the given id=" +:+ id
            +:+ ". Leave not found!"), st)
    end.

Definition deleteLeave (st : Storage) (env : Env) (id : string)
  : Result Leave string * Storage :=
  if negb (isValidUUID id) then (Err "Please enter valid Leave ID!", st)
  else
    let already_accepted :=
      (@Err Leave string "Leave is already accepted so you can't delete/cancel leave!", st) in
    match leaveStorage st !! id with
    | None => already_accepted
    | Some leave =>
      if String.eqb (leave_status leave) "ACCEPTED" then already_accepted
      else
        (* [leaveStorage.remove(id)] hands back the stored leave *)
        let deletedLeave := leave in
        let st1 := mkStorage (userStorage st) (delete id (leaveStorage st)) in
        let st2 :=
          if String.eqb (leave_status deletedLeave) LeaveStatuses.PENDING then
            snd (updateUsersAvailableDays st1 env (leave_userId deletedLeave)
                                          (leave_days deletedLeave) ADD)
          else st1 in
        (Ok deletedLeave, st2)
    end.

Definition updateLeaveStatus (st : Storage) (env : Env) (id : string) (status : string)
  : Result Leave string * Storage :=
  if negb (isAdmin st env) then
    (Err "You do not have the permission for this operation!", st)
  else if negb (isValidUUID id) then (Err "Please enter valid Leave ID!", st)
  else
    match leaveStorage st !! id with
    | Some leave =>
      let updatedLeave :=
        mkLeave (leave_id leave) (leave_userId leave)
                (leave_startDate leave) (leave_endDate leave) (leave_days leave)
                status (leave_createdAt leave) (Some (time env)) in
      let st1 :=
        mkStorage (userStorage st)
                  (<[leave_id leave := updatedLeave]> (leaveStorage st)) in
      let st2 :=
        if String.eqb status LeaveStatuses.REJECTED then
          snd (updateUsersAvailableDays st1 env (leave_userId leave)
                                        (leave_days leave) ADD)
        else
          snd (updateUsersAvailableDays st1 env (leave_userId leave)
                                        (leave_days leave) SUBTRACT) in
      (Ok updatedLeave, st2)
    | None =>
      (Err ("Could not update status of the leave with the given id=" +:+ id
            +:+ ". Leave not found!"), st)
    end.

(** *** The service of index.did *)

Inductive Call : Type :=
| CreateUser (payload : CreateOrEditUserPayload)
| DeleteLeave (id : string)
| GetMyLeaveRequests
| GetMyLeaveRequestsByStatus (status : string)
| GetUser (id : Principal)
| GetUsers
| PromoteUser (payload : PromoteUserPayload)
| RequestLeave (payload : LeavePayload)
| UpdateLeave (id : string) (payload : LeavePayload)
| UpdateLeaveStatus (id : string) (status : string)
| UpdateUser (payload : CreateOrEditUserPayload).

Inductive Reply : Type :=
| ReplyUser (u : User)
| ReplyLeave (l : Leave)
| ReplyLeaves (ls : list Leave)
| ReplyUsers (us : list User).

Definition reply {A : Type} (wrap : A → Reply) (r : Result A string)
  : Result Reply string :=
  match r with
  | Ok v => Ok (wrap v)
  | Err e => Err e
  end.

(** One call of the service: queries hand the state back untouched. *)
Definition perform (st : Storage) (env : Env) (c : Call)
  : Result Reply string * Storage :=
  match c with
  | CreateUser p => let '(r, st') := createUser st env p in (reply ReplyUser r, st')
  | DeleteLeave id => let '(r, st') := deleteLeave st env id in (reply ReplyLeave r, st')
  | GetMyLeaveRequests => (reply ReplyLeaves (getMyLeaveRequests st env), st)
  | GetMyLeaveRequestsByStatus s =>
      (reply ReplyLeaves (getMyLeaveRequestsByStatus st env s), st)
  | GetUser id => (reply ReplyUser (getUser st id), st)
  | GetUsers => (reply ReplyUsers (getUsers st env), st)
  | PromoteUser p => let '(r, st') := promoteUser st env p in (reply ReplyUser r, st')
  | RequestLeave p => let '(r, st') := requestLeave st env p in (reply ReplyLeave r, st')
  | UpdateLeave id p => let '(r, st') := updateLeave st env id p in (reply ReplyLeave r, st')
  | UpdateLeaveStatus id s =>
      let '(r, st') := updateLeaveStatus st env id s in (reply ReplyLeave r, st')
  | UpdateUser p => let '(r, st') := updateUser st env p in (reply ReplyUser r, st')
  end.

End Canister.

(** ** A concrete platform

    One instance of the abstract functions, used to run the canister on
    sample calls: the UTC calendar for [getFullYear], the syntax of the
    uuid package for [isValidUUID]. *)

Module Utc.

(** The year of a time value in UTC (days are counted from 0000-03-01,
    in eras of 400 years); a [Date] beyond 8.64e15 ms is invalid. *)
Definition getFullYear (t : Z) : option Z :=
  if Z.abs t >? 8640000000000000 then None
  else
    let z := t / oneDay + 719468 in
    let era := z / 146097 in
    let doe := z - era * 146097 in
    let yoe := (doe - doe / 1460 + doe / 36524 - doe / 146096) / 365 in
    let y := yoe + era * 400 in
    let doy := doe - (365 * yoe + yoe / 4 - yoe / 100) in
    let mp := (5 * doy + 2) / 153 in
    Some (if mp <? 10 then y else y + 1).

Definition in_range (lo hi : nat) (c : Ascii.ascii) : bool :=
  let n := Ascii.nat_of_ascii c in ((lo <=? n) && (n <=? hi))%nat.

Definition hex (c : Ascii.ascii) : bool :=
  in_range 48 57 c || in_range 65 70 c || in_range 97 102 c.

Definition dash (c : Ascii.ascii) : bool := in_range 45 45 c.

(** A string matches a pattern when it has one character per class. *)
Fixpoint matches (pattern : list (Ascii.ascii → bool)) (s : string) : bool :=
  match pattern, s with
  | [], EmptyString => true
  | p :: pattern', String c s' => p c && matches pattern' s'
  | _, _ => false
  end.

(** [validate] of the uuid package: versions 1 to 5 with the RFC 4122
    variant, or the nil uuid. *)
Definition isValidUUID (s : string) : bool :=
  matches (replicate 8 hex ++ [dash] ++ replicate 4 hex ++ [dash]
           ++ [in_range 49 53] ++ replicate 3 hex ++ [dash]
           ++ [fun c => in_range 56 57 c || in_range 65 66 c || in_range 97 98 c]
           ++ replicate 3 hex ++ [dash] ++ replicate 12 hex) s
  || String.eqb s "00000000-0000-0000-0000-000000000000".

(** A stand-in for the email pattern: some text, an [@], some text. *)
Fixpoint after_at (s : string) : option string :=
  match s with
  | EmptyString => None
  | String c s' => if in_range 64 64 c then Some s' else after_at s'
  end.

Definition email_regex_test (s : string) : bool :=
  match s, after_at s with
  | String c _, Some (String _ _) => negb (in_range 64 64 c)
  | _, _ => false
  end.

(** [===] between two [Principal] objects that were built separately. *)
Definition principal_strict_eq (a b : Principal) : bool := false.

Definition platform : Platform :=
  Build_Platform email_regex_test isValidUUID getFullYear principal_strict_eq.

End Utc.

(** ** Balances *)

(** The balance stored for a user, if the user is stored. *)
Definition balance (st : Storage) (userId : Principal) : option Z :=
  user_availableDays <$> userStorage st !! userId.

(** What an adjustment leaves in the balance: nothing happens when the
    stored balance is 0 or the adjusted balance would be 0. *)
Definition adjusted (a d : Z) (operation : Operation) : Z :=
  let a' := match operation with ADD => a + d | SUBTRACT => a - d end in
  if ((a =? 0) || (a' =? 0))%bool then a else a'.

(** ** States the service can reach *)

(** What holds of the two maps after any sequence of calls: records sit
    under their own identifier, every leave has its owner in the
    directory, and no stored balance is 0. *)
Record consistent (st : Storage) : Prop := mkConsistent {
  users_keyed : ∀ k u, userStorage st !! k = Some u → user_id u = k;
  leaves_keyed : ∀ k l, leaveStorage st !! k = Some l → leave_id l = k;
  owners_stored :
    ∀ k l, leaveStorage st !! k = Some l → is_Some (userStorage st !! leave_userId l);
  balances_nonzero : ∀ k u, userStorage st !! k = Some u → user_availableDays u ≠ 0
}.

(** The directory after a call that wrote at most one user record. *)
Definition users_step (st st' : Storage) : Prop :=
  userStorage st' = userStorage st ∨
  ∃ u', user_availableDays u' ≠ 0 ∧
        userStorage st' = <[user_id u' := u']> (userStorage st).

(** The states reached from the empty canister by calls of the service. *)
Inductive reachable `{platform : Platform} : Storage → Prop :=
| reachable_init : reachable (mkStorage ∅ ∅)
| reachable_step st env call :
    reachable st → reachable (snd (perform st env call)).

(** ** Sample data

    A small company in January 2023: Alice administers, Bob has a
    pending leave from 1 to 5 January (4 days, already taken off his 21),
    Carol is a second administrator and Dave has no day left (a balance
    of 0 is one the service never writes itself, see [consistent]). *)

Module Sample.

Local Open Scope string_scope.

(** Midnight UTC of a day of January 2023, in milliseconds. *)
Definition january (day : Z) : Z := 1672531200000 + (day - 1) * oneDay.

Definition alice : User :=
  mkUser "alice" "Alice" "alice@example.org" true true 21 100 (Some 100%N).
Definition bob : User :=
  mkUser "bob" "Bob" "bob@example.org" true false 17 200 (Some 300%N).
Definition carol : User :=
  mkUser "carol" "Carol" "carol@example.org" true true 21 210 (Some 250%N).
Definition dave : User :=
  mkUser "dave" "Dave" "dave@example.org" true false 0 220 (Some 320%N).

Definition bob_leave_id : string := "9b2f7c1e-3d4a-4e5f-8a6b-7c8d9e0f1a2b".
Definition dave_leave_id : string := "5d0c2a6e-7b1f-4c3d-9e8a-0f1b2c3d4e5f".
Definition fresh_id : string := "1c7e4b2a-9d3f-4a6b-8c5d-2e1f0a9b8c7d".

Definition bob_leave : Leave :=
  mkLeave bob_leave_id "bob" (january 1) (january 5) 4 "PENDING" 300 None.
Definition dave_leave : Leave :=
  mkLeave dave_leave_id "dave" (january 9) (january 12) 3 "PENDING" 320 None.

Definition users : gmap Principal User :=
  <["alice" := alice]> (<["bob" := bob]> (<["carol" := carol]> (<["dave" := dave]> ∅))).

Definition st : Storage :=
  mkStorage users (<[bob_leave_id := bob_leave]> (<[dave_leave_id := dave_leave]> ∅)).

(** The same company once Bob's leave has been approved (the approval
    took its 4 days a second time). *)
Definition bob_approved : Leave :=
  mkLeave bob_leave_id "bob" (january 1) (january 5) 4 "APPROVED" 300 (Some 400%N).
Definition bob_after_approval : User :=
  mkUser "bob" "Bob" "bob@example.org" true false 13 200 (Some 400%N).
Definition st_approved : Storage :=
  mkStorage (<["bob" := bob_after_approval]> users)
            (<[bob_leave_id := bob_approved]> (leaveStorage st)).

(** Calls made on 10 January 2023. *)
Definition as_alice : Env := mkEnv "alice" 400 (january 10) fresh_id.
Definition as_bob : Env := mkEnv "bob" 410 (january 10) fresh_id.
Definition as_dave : Env := mkEnv "dave" 420 (january 10) fresh_id.

End Sample.

(** ** The pattern of [isValidEmail]

    The regular expression of utils.ts, on strings whose characters are
    code units below 256.  [regex.test] with a pattern anchored at both
    ends asks whether the whole string belongs to the language of the
    pattern; that language is given twice, as the relation [matches]
    and as the test [regex_test] that computes with derivatives. *)

Inductive regex : Type :=
| Fail
| Eps
| Class (c : Ascii.ascii → bool)
| Seq (r1 r2 : regex)
| Or (r1 r2 : regex)
| Many (r : regex).

Inductive matches : regex → string → Prop :=
| matches_eps : matches Eps ""
| matches_class c a : c a = true → matches (Class c) (String a "")
| matches_seq r1 r2 s1 s2 :
    matches r1 s1 → matches r2 s2 → matches (Seq r1 r2) (s1 +:+ s2)
| matches_or_l r1 r2 s : matches r1 s → matches (Or r1 r2) s
| matches_or_r r1 r2 s : matches r2 s → matches (Or r1 r2) s
| matches_many_nil r : matches (Many r) ""
| matches_many_cons r s1 s2 :
    matches r s1 → matches (Many r) s2 → matches (Many r) (s1 +:+ s2).

Fixpoint nullable (r : regex) : bool :=
  match r with
  | Fail => false
  | Eps => true
  | Class _ => false
  | Seq r1 r2 => nullable r1 && nullable r2
  | Or r1 r2 => nullable r1 || nullable r2
  | Many _ => true
  end.

Fixpoint derive (a : Ascii.ascii) (r : regex) : regex :=
  match r with
  | Fail => Fail
  | Eps => Fail
  | Class c => if c a then Eps else Fail
  | Seq r1 r2 =>
      Or (Seq (derive a r1) r2) (if nullable r1 then derive a r2 else Fail)
  | Or r1 r2 => Or (derive a r1) (derive a r2)
  | Many r' => Seq (derive a r') (Many r')
  end.

Fixpoint regex_test (r : regex) (s : string) : bool :=
  match s with
  | EmptyString => nullable r
  | String a s' => regex_test (derive a r) s'
  end.

(** [r+], [r{1,3}] and [r{2,}] *)
Definition many1 (r : regex) : regex := Seq r (Many r).
Definition upto3 (r : regex) : regex := Seq r (Seq (Or r Eps) (Or r Eps)).
Definition atleast2 (r : regex) : regex := Seq r (Seq r (Many r)).

(** Character classes, by code. *)
Definition code_in (codes : list nat) (c : Ascii.ascii) : bool :=
  existsb (Nat.eqb (Ascii.nat_of_ascii c)) codes.

Definition code_between (lo hi : nat) (c : Ascii.ascii) : bool :=
  let n := Ascii.nat_of_ascii c in ((lo <=? n) && (n <=? hi))%nat.

(** [\s], below 256: tab, line feed, vertical tab, form feed, carriage
    return, space, no-break space. *)
Definition whitespace : Ascii.ascii → bool := code_in [9; 10; 11; 12; 13; 32; 160]%nat.

(** [.]: anything but a line terminator. *)
Definition any_char (c : Ascii.ascii) : bool := negb (code_in [10; 13]%nat c).

(** The negated class of the local part: none of < > ( ) [ ] \ . , ; : @
    nor the quotation mark, and no white space. *)
Definition atom_char (c : Ascii.ascii) : bool :=
  negb (code_in [60; 62; 40; 41; 91; 93; 92; 46; 44; 59; 58; 64; 34]%nat c
        || whitespace c).

(** [[0-9]], [[a-zA-Z]] and [[a-zA-Z\-0-9]] *)
Definition digit_char : Ascii.ascii → bool := code_between 48 57.
Definition letter_char (c : Ascii.ascii) : bool :=
  code_between 97 122 c || code_between 65 90 c.
Definition label_char (c : Ascii.ascii) : bool :=
  letter_char c || code_in [45]%nat c || digit_char c.

Definition lit (code : nat) : regex := Class (code_in [code]).
Definition dot : regex := lit 46.
Definition at_sign : regex := lit 64.
Definition quote : regex := lit 34.

(** The local part: atoms separated by dots, or one character and a
    quoted text. *)
Definition local_part : regex :=
  Or (Seq (many1 (Class atom_char)) (Many (Seq dot (many1 (Class atom_char)))))
     (Seq (Class any_char) (Seq quote (Seq (many1 (Class any_char)) quote))).

(** The domain: four numbers between brackets, or labels each followed
    by a dot and then two letters or more. *)
Definition bracketed_address : regex :=
  Seq (lit 91)
    (Seq (upto3 (Class digit_char)) (Seq dot
    (Seq (upto3 (Class digit_char)) (Seq dot
    (Seq (upto3 (Class digit_char)) (Seq dot
    (Seq (upto3 (Class digit_char)) (lit 93)))))))).

Definition named_domain : regex :=
  Seq (many1 (Seq (many1 (Class label_char)) dot)) (atleast2 (Class letter_char)).

Definition email_pattern : regex :=
  Seq local_part (Seq at_sign (Or bracketed_address named_domain)).

(** Every character of a string is in a class. *)
Fixpoint all_chars (c : Ascii.ascii → bool) (s : string) : bool :=
  match s with
  | EmptyString => true
  | String a s' => c a && all_chars c s'
  end.

(** The platform of [Utc] with the pattern of utils.ts for the emails. *)
Definition with_pattern : Platform :=
  Build_Platform (regex_test email_pattern) Utc.isValidUUID Utc.getFullYear
                 Utc.principal_strict_eq.

(** ** Further notions used in the properties *)

(** The record [updateUsersAvailableDays] leaves for a user stored as
    [u]: untouched when the balance is 0, with a new [updatedAt] only
    when the new balance would be 0, with both otherwise. *)
Definition adjusted_user (t : N) (u : User) (d : Z) (operation : Operation) : User :=
  let a := user_availableDays u in
  let a' := match operation with ADD => a + d | SUBTRACT => a - d end in
  if a =? 0 then u
  else if a' =? 0 then set_user_updatedAt (Some t) u
  else set_user_availableDays a' (set_user_updatedAt (Some t) u).

(** No two stored users share an email. *)
Definition emails_unique (st : Storage) : Prop :=
  ∀ k1 k2 u1 u2,
    userStorage st !! k1 = Some u1 →
    userStorage st !! k2 = Some u2 →
    user_email u1 = user_email u2 → k1 = k2.

(** The day count of every stored leave is the one of its dates. *)
Definition days_derived (st : Storage) : Prop :=
  ∀ k l, leaveStorage st !! k = Some l →
         leave_days l = findDiffInDays (leave_startDate l) (leave_endDate l).

(** A sequence of calls, each in its environment. *)
Definition run `{platform : Platform} (st : Storage) (calls : list (Env * Call))
  : Storage :=
  fold_left (fun s ec => snd (perform s (fst ec) (snd ec))) calls st.

(** The platform of [Utc] with principals compared by value. *)
Definition by_value : Platform :=
  Build_Platform Utc.email_regex_test Utc.isValidUUID Utc.getFullYear String.eqb.

(** How the sample company came to be: Alice registers first, Bob
    second; Alice activates Bob; Bob asks for 1 to 5 January. *)
Module Story.

Local Open Scope string_scope.

Definition alice_registers : Env * Call :=
  (mkEnv "alice" 100 (Sample.january 2) Sample.fresh_id,
   CreateUser (mkCreateOrEditUserPayload "Alice" "alice@example.org")).

Definition bob_registers : Env * Call :=
  (mkEnv "bob" 200 (Sample.january 2) Sample.fresh_id,
   CreateUser (mkCreateOrEditUserPayload "Bob" "bob@example.org")).

Definition alice_activates_bob : Env * Call :=
  (mkEnv "alice" 250 (Sample.january 2) Sample.fresh_id,
   PromoteUser (mkPromoteUserPayload "bob" None (Some true))).

Definition bob_requests : Env * Call :=
  (mkEnv "bob" 300 (Sample.january 2) Sample.bob_leave_id,
   RequestLeave (mkLeavePayload (Sample.january 1) (Sample.january 5))).

Definition calls : list (Env * Call) :=
  [alice_registers; bob_registers; alice_activates_bob; bob_requests].

Definition st : Storage := run (platform := Utc.platform) (mkStorage ∅ ∅) calls.

End Story.

(** A time value a [Date] can hold: at most 8.64e15 milliseconds either
    side of the epoch, all of them integers that float64 holds exactly. *)
Definition time_value (t : Z) : Prop := Z.abs t ≤ 8640000000000000.

(** ** The balance path on numbers that may be NaN

    The service takes and stores float64 (index.did).  One request with
    NaN dates passes every test of [requestLeave] (each comparison with
    NaN is false) and stores a leave whose [days] is NaN.  The three
    functions that move a balance are therefore given a second time, on
    numbers that are an integer or NaN, with JavaScript's rules: NaN
    spreads through [+] and [-] and is falsy.  On integers they compute
    as float64 does as long as the values stay among the safe integers. *)

Inductive number : Type :=
| Num (z : Z)
| NaN.

Definition number_add (a b : number) : number :=
  match a, b with
  | Num x, Num y => Num (x + y)
  | _, _ => NaN
  end.

Definition number_sub (a b : number) : number :=
  match a, b with
  | Num x, Num y => Num (x - y)
  | _, _ => NaN
  end.

(** Truthiness of a number: [0] and [NaN] are falsy. *)
Definition truthy (n : number) : bool :=
  match n with
  | Num z => negb (z =? 0)
  | NaN => false
  end.

(** [Number.MAX_SAFE_INTEGER], 2^53 - 1: up to it integers and their
    sums and differences are exact in float64. *)
Definition MAX_SAFE_INTEGER : Z := 9007199254740991.

Definition safe_integer (z : Z) : Prop := Z.abs z ≤ MAX_SAFE_INTEGER.

Record NumUser : Type := mkNumUser {
  nuser_id : Principal;
  nuser_name : string;
  nuser_email : string;
  nuser_isActive : bool;
  nuser_isAdmin : bool;
  nuser_availableDays : number;
  nuser_createdAt : N;
  nuser_updatedAt : option N
}.

Record NumUserPayload : Type := mkNumUserPayload {
  nup_id : option Principal;
  nup_name : option string;
  nup_email : option string;
  nup_isActive : option bool;
  nup_isAdmin : option bool;
  nup_availableDays : option number
}.

Record NumLeave : Type := mkNumLeave {
  nleave_id : string;
  nleave_userId : Principal;
  nleave_startDate : number;
  nleave_endDate : number;
  nleave_days : number;
  nleave_status : string;
  nleave_createdAt : N;
  nleave_updatedAt : option N
}.

Record NumStorage : Type := mkNumStorage {
  numUserStorage : gmap Principal NumUser;
  numLeaveStorage : gmap string NumLeave
}.

Definition set_nuser_updatedAt (t : option N) (u : NumUser) : NumUser :=
  mkNumUser (nuser_id u) (nuser_name u) (nuser_email u) (nuser_isActive u)
            (nuser_isAdmin u) (nuser_availableDays u) (nuser_createdAt u) t.

Definition set_nuser_availableDays (d : number) (u : NumUser) : NumUser :=
  mkNumUser (nuser_id u) (nuser_name u) (nuser_email u) (nuser_isActive u)
            (nuser_isAdmin u) d (nuser_createdAt u) (nuser_updatedAt u).

Definition set_nuser_isActive (b : bool) (u : NumUser) : NumUser :=
  mkNumUser (nuser_id u) (nuser_name u) (nuser_email u) b
            (nuser_isAdmin u) (nuser_availableDays u) (nuser_createdAt u)
            (nuser_updatedAt u).

Definition set_nuser_isAdmin (b : bool) (u : NumUser) : NumUser :=
  mkNumUser (nuser_id u) (nuser_name u) (nuser_email u) (nuser_isActive u)
            b (nuser_availableDays u) (nuser_createdAt u) (nuser_updatedAt u).

Definition set_nuser_name (s : string) (u : NumUser) : NumUser :=
  mkNumUser (nuser_id u) s (nuser_email u) (nuser_isActive u)
            (nuser_isAdmin u) (nuser_availableDays u) (nuser_createdAt u)
            (nuser_updatedAt u).

Definition set_nuser_email (s : string) (u : NumUser) : NumUser :=
  mkNumUser (nuser_id u) (nuser_name u) s (nuser_isActive u)
            (nuser_isAdmin u) (nuser_availableDays u) (nuser_createdAt u)
            (nuser_updatedAt u).

Section CanisterOnNumbers.

Context `{platform : Platform}.

Local Open Scope string_scope.

(** [isAdmin] *)
Definition isAdmin_num (st : NumStorage) (env : Env) : bool :=
  match numUserStorage st !! caller env with
  | Some user => nuser_isAdmin user
  | None => false
  end.

Definition isUserExists_num (st : NumStorage) (email : string) : bool :=
  existsb (fun user => String.eqb (nuser_email user) email)
          (values (numUserStorage st)).

(** [updateUserParams] *)
Definition updateUserParams_num (st : NumStorage) (env : Env) (payload : NumUserPayload)
  : Result NumUser string * NumStorage :=
  match nup_id payload with
  | None => (Err "ID cannot be empty! Please enter valid data.", st)
  | Some pid =>
    match numUserStorage st !! pid with
    | Some user =>
      let updatedUser := set_nuser_updatedAt (Some (time env)) user in
      let updatedUser :=
        match nup_availableDays payload with
        | Some d => if truthy d
                    then set_nuser_availableDays d updatedUser else updatedUser
        | None => updatedUser
        end in
      let updatedUser :=
        match nup_isActive payload with
        | Some true => set_nuser_isActive true updatedUser
        | _ => updatedUser
        end in
      let updatedUser :=
        match nup_isAdmin payload with
        | Some true => set_nuser_isAdmin true updatedUser
        | _ => updatedUser
        end in
      let updatedUser :=
        match nup_name payload with
        | Some n => if truthy_string n
                    then set_nuser_name n updatedUser else updatedUser
        | None => updatedUser
        end in
      let store (u : NumUser) :=
        (Ok u, mkNumStorage (<[nuser_id user := u]> (numUserStorage st))
                            (numLeaveStorage st)) in
      match nup_email payload with
      | Some e =>
        if truthy_string e then
          if negb (isValidEmail e) then
            (Err "Incorrect email! Please enter valid email.", st)
          else if isUserExists_num st e then
            (Err "User with given email address exists already!", st)
          else store (set_nuser_email e updatedUser)
        else store updatedUser
      | None => store updatedUser
      end
    | None =>
      (Err ("Could not update a user with the given id=" +:+ pid
            +:+ ". User not found!"), st)
    end
  end.

(** [updateUsersAvailableDays] *)
Definition updateUsersAvailableDays_num (st : NumStorage) (env : Env)
    (userId : Principal) (leaveDays : number) (operation : Operation)
  : Result NumUser string * NumStorage :=
  let failed :=
    (Err ("Could not update status of the leave with the given id=" +:+ userId
          +:+ ". Something went wrong!"), st) in
  match numUserStorage st !! userId with
  | None => failed
  | Some user =>
    if negb (truthy (nuser_availableDays user)) then failed
    else
      let availableDays :=
        match operation with
        | ADD => number_add (nuser_availableDays user) leaveDays
        | SUBTRACT => number_sub (nuser_availableDays user) leaveDays
        end in
      updateUserParams_num st env
        (mkNumUserPayload (Some userId) None None None None (Some availableDays))
  end.

(** [updateLeaveStatus] *)
Definition updateLeaveStatus_num (st : NumStorage) (env : Env) (id : string)
    (status : string) : Result NumLeave string * NumStorage :=
  if negb (isAdmin_num st env) then
    (Err "You do not have the permission for this operation!", st)
  else if negb (isValidUUID id) then (Err "Please enter valid Leave ID!", st)
  else
    match numLeaveStorage st !! id with
    | Some leave =>
      let updatedLeave :=
        mkNumLeave (nleave_id leave) (nleave_userId leave)
                   (nleave_startDate leave) (nleave_endDate leave) (nleave_days leave)
                   status (nleave_createdAt leave) (Some (time env)) in
      let st1 :=
        mkNumStorage (numUserStorage st)
                     (<[nleave_id leave := updatedLeave]> (numLeaveStorage st)) in
      let st2 :=
        if String.eqb status LeaveStatuses.REJECTED then
          snd (updateUsersAvailableDays_num st1 env (nleave_userId leave)
                                            (nleave_days leave) ADD)
        else
          snd (updateUsersAvailableDays_num st1 env (nleave_userId leave)
                                            (nleave_days leave) SUBTRACT) in
      (Ok updatedLeave, st2)
    | None =>
      (Err ("Could not update status of the leave with the given id=" +:+ id
            +:+ ". Leave not found!"), st)
    end.

End CanisterOnNumbers.

(** The balance stored for a user, as a number. *)
Definition balance_num (st : NumStorage) (userId : Principal) : option number :=
  nuser_availableDays <$> numUserStorage st !! userId.

(** A state of integers seen as a state of numbers. *)
Definition user_as_numbers (u : User) : NumUser :=
  mkNumUser (user_id u) (user_name u) (user_email u) (user_isActive u)
            (user_isAdmin u) (Num (user_availableDays u)) (user_createdAt u)
            (user_updatedAt u).

Definition leave_as_numbers (l : Leave) : NumLeave :=
  mkNumLeave (leave_id l) (leave_userId l) (Num (leave_startDate l))
             (Num (leave_endDate l)) (Num (leave_days l)) (leave_status l)
             (leave_createdAt l) (leave_updatedAt l).

Definition as_numbers (st : Storage) : NumStorage :=
  mkNumStorage (user_as_numbers <$> userStorage st)
               (leave_as_numbers <$> leaveStorage st).

(** The sample company with one more leave of Bob, such as a request
    with NaN dates stores it: NaN for the dates and for the days. *)
Module SampleNaN.

Local Open Scope string_scope.

Definition nan_leave : NumLeave :=
  mkNumLeave Sample.fresh_id "bob" NaN NaN NaN "PENDING" 410 None.

Definition st : NumStorage :=
  mkNumStorage (numUserStorage (as_numbers Sample.st))
               (<[Sample.fresh_id := nan_leave]> (numLeaveStorage (as_numbers Sample.st))).

End SampleNaN.

(** * Properties *)

(** ** Sample runs of the primitives *)

Example findDiffInDays_4 : findDiffInDays 1672531200000 1672876800000 = 4.
Proof. reflexivity. Qed.

Example findDiffInDays_half : findDiffInDays 0 (oneDay + oneDay / 2) = 2.
Proof. reflexivity. Qed.

Example findDiffInDays_short : findDiffInDays 0 1 = 1.
Proof. reflexivity. Qed.

Example year_2023_start : Utc.getFullYear 1672531200000 = Some 2023.
Proof. reflexivity. Qed.

Example year_2022_end : Utc.getFullYear 1672531199999 = Some 2022.
Proof. reflexivity. Qed.

Example year_2024_leap_end : Utc.getFullYear 1735689599999 = Some 2024.
Proof. reflexivity. Qed.

Example year_epoch : Utc.getFullYear 0 = Some 1970 ∧ Utc.getFullYear (-1) = Some 1969.
Proof. split; reflexivity. Qed.

Example uuid_ok : Utc.isValidUUID "9b2f7c1e-3d4a-4e5f-8a6b-7c8d9e0f1a2b" = true.
Proof. reflexivity. Qed.

Example uuid_bad : Utc.isValidUUID "leave-1" = false.
Proof. reflexivity. Qed.


(** ** The day count *)

(** [findDiffInDays] computed on integers: the rounded quotient is the
    floor of [(2|e - s| + oneDay) / (2 oneDay)]. *)
Lemma findDiffInDays_Z (s e : Z) :
  findDiffInDays s e =
  let diffDays := (2 * Z.abs (e - s) + oneDay) / (2 * oneDay) in
  if diffDays =? 0 then 1 else diffDays.
Proof.
  unfold findDiffInDays, Math_round, Math_abs.
  assert (Hq : Qfloor (Qplus (Qabs (Qdiv (inject_Z (e - s)) (inject_Z oneDay))) (Qmake 1 2))
               = (2 * Z.abs (e - s) + oneDay) / (2 * oneDay)).
  { generalize (e - s). intros n.
    change (inject_Z oneDay) with (Qmake 86400000 1).
    change oneDay with 86400000.
    unfold Qdiv, Qinv, Qmult, Qabs, Qplus, Qfloor, inject_Z. cbn [Qnum Qden].
    f_equal; lia. }
  rewrite Hq. reflexivity.
Qed.

(** The span rounded to whole days, halves going up, and at least 1:
    [k] is the rounded span when [k - 1/2 ≤ |e - s| / oneDay < k + 1/2]. *)
Lemma findDiffInDays_rounds (s e k : Z) :
  (2 * k - 1) * oneDay ≤ 2 * Z.abs (e - s) < (2 * k + 1) * oneDay →
  findDiffInDays s e = Z.max 1 k.
Proof.
  intros Hk. rewrite findDiffInDays_Z. cbv zeta.
  assert (HD : oneDay = 86400000) by reflexivity.
  assert (Hdiv : (2 * Z.abs (e - s) + oneDay) / (2 * oneDay) = k).
  { symmetry.
    apply Z.div_unique with (r := 2 * Z.abs (e - s) + oneDay - 2 * oneDay * k); lia. }
  rewrite Hdiv.
  destruct (Z.eqb_spec k 0) as [-> | Hne]; [reflexivity |].
  assert (0 ≤ k) by lia. lia.
Qed.

Lemma findDiffInDays_pos (s e : Z) : 1 ≤ findDiffInDays s e.
Proof.
  rewrite findDiffInDays_Z. cbv zeta.
  assert (HD : oneDay = 86400000) by reflexivity.
  assert (0 ≤ (2 * Z.abs (e - s) + oneDay) / (2 * oneDay))
    by (apply Z.div_pos; lia).
  destruct (Z.eqb_spec ((2 * Z.abs (e - s) + oneDay) / (2 * oneDay)) 0); lia.
Qed.

Lemma isEmpty_spec {K V : Type} `{Countable K} (m : gmap K V) :
  isEmpty m = true ↔ m = ∅.
Proof.
  unfold isEmpty. rewrite Nat.eqb_eq. apply map_size_empty_iff.
Qed.

Section Properties.

Context `{platform : Platform}.

Lemma updateUserParams_balance_only st env uid u d :
  userStorage st !! uid = Some u →
  updateUserParams st env (mkUserPayload (Some uid) None None None None (Some d)) =
  let u' := if truthy_number d
            then set_user_availableDays d (set_user_updatedAt (Some (time env)) u)
            else set_user_updatedAt (Some (time env)) u in
  (Ok u', mkStorage (<[user_id u := u']> (userStorage st)) (leaveStorage st)).
Proof.
  intros Hu. unfold updateUserParams. cbn [up_id up_availableDays up_isActive
    up_isAdmin up_name up_email]. rewrite Hu. reflexivity.
Qed.

Lemma updateUsersAvailableDays_leaves st env uid d op :
  leaveStorage (snd (updateUsersAvailableDays st env uid d op)) = leaveStorage st.
Proof.
  unfold updateUsersAvailableDays.
  destruct (userStorage st !! uid) as [u|] eqn:Hu; [| reflexivity].
  destruct (negb (truthy_number (user_availableDays u))); [reflexivity |].
  rewrite (updateUserParams_balance_only _ _ _ _ _ Hu). reflexivity.
Qed.

(** The balance after [updateUsersAvailableDays], written out. *)
Lemma updateUsersAvailableDays_balance st env uid u d op :
  userStorage st !! uid = Some u →
  user_id u = uid →
  balance (snd (updateUsersAvailableDays st env uid d op)) uid =
  Some (adjusted (user_availableDays u) d op).
Proof.
  intros Hu Hid. unfold updateUsersAvailableDays, adjusted, balance.
  rewrite Hu. unfold truthy_number. rewrite negb_involutive.
  destruct (Z.eqb_spec (user_availableDays u) 0) as [H0 | H0]; cbn [orb snd].
  - rewrite Hu. reflexivity.
  - rewrite (updateUserParams_balance_only _ _ _ _ _ Hu). cbv zeta.
    cbn [snd userStorage]. rewrite Hid, lookup_insert_eq. cbn [fmap option_fmap option_map].
    unfold truthy_number.
    destruct op; match goal with
    | |- context [negb (?x =? 0)] => destruct (Z.eqb_spec x 0)
    end; reflexivity.
Qed.

(** Other users keep their record. *)
Lemma updateUsersAvailableDays_other st env uid u d op other :
  userStorage st !! uid = Some u →
  user_id u = uid →
  other ≠ uid →
  userStorage (snd (updateUsersAvailableDays st env uid d op)) !! other =
  userStorage st !! other.
Proof.
  intros Hu Hid Hne. unfold updateUsersAvailableDays. rewrite Hu.
  destruct (negb (truthy_number (user_availableDays u))); [reflexivity |].
  rewrite (updateUserParams_balance_only _ _ _ _ _ Hu). cbv zeta.
  cbn [snd userStorage]. rewrite Hid. apply lookup_insert_ne. congruence.
Qed.

(** *** What the three balance-moving operations do *)

(** A status update by an administrator succeeds on any stored leave,
    whatever the status text, and adjusts the owner's balance: a refund
    for REJECTED, a deduction for anything else. *)
Lemma updateLeaveStatus_effect st env id status l u :
  isAdmin st env = true →
  isValidUUID id = true →
  leaveStorage st !! id = Some l →
  userStorage st !! leave_userId l = Some u →
  user_id u = leave_userId l →
  is_Ok (fst (updateLeaveStatus st env id status)) = true ∧
  balance (snd (updateLeaveStatus st env id status)) (leave_userId l) =
  Some (adjusted (user_availableDays u) (leave_days l)
                 (if String.eqb status LeaveStatuses.REJECTED then ADD else SUBTRACT)).
Proof.
  intros Hadm Hid Hl Hu Hkey. unfold updateLeaveStatus.
  rewrite Hadm, Hid, Hl. cbn [negb fst snd is_Ok]. split; [reflexivity |].
  destruct (String.eqb status LeaveStatuses.REJECTED);
    apply updateUsersAvailableDays_balance; assumption.
Qed.

(** Deleting a stored leave whose status is not the text ACCEPTED
    succeeds, removes it, and refunds the owner only if it was PENDING. *)
Lemma deleteLeave_effect st env id l :
  isValidUUID id = true →
  leaveStorage st !! id = Some l →
  leave_status l ≠ "ACCEPTED"%string →
  fst (deleteLeave st env id) = Ok l ∧
  leaveStorage (snd (deleteLeave st env id)) !! id = None ∧
  ∀ u, userStorage st !! leave_userId l = Some u →
       user_id u = leave_userId l →
       balance (snd (deleteLeave st env id)) (leave_userId l) =
       Some (if String.eqb (leave_status l) LeaveStatuses.PENDING
             then adjusted (user_availableDays u) (leave_days l) ADD
             else user_availableDays u).
Proof.
  intros Hid Hl Hst. unfold deleteLeave. rewrite Hid, Hl. cbn [negb].
  apply String.eqb_neq in Hst. rewrite Hst. cbn [fst snd].
  split; [reflexivity |]. split.
  - destruct (String.eqb (leave_status l) LeaveStatuses.PENDING).
    + rewrite updateUsersAvailableDays_leaves. cbn [leaveStorage].
      apply lookup_delete_eq.
    + cbn [leaveStorage]. apply lookup_delete_eq.
  - intros u Hu Hkey.
    destruct (String.eqb (leave_status l) LeaveStatuses.PENDING).
    + apply updateUsersAvailableDays_balance; assumption.
    + unfold balance. cbn [userStorage]. rewrite Hu. reflexivity.
Qed.

(** A request that passes the checks succeeds: the overlap test has no
    say, the leave is stored PENDING with the computed day count, and
    the days are deducted. *)
Lemma requestLeave_effect st env payload u y :
  userStorage st !! caller env = Some u →
  user_isActive u = true →
  lp_startDate payload < lp_endDate payload →
  findDiffInDays (lp_startDate payload) (lp_endDate payload) ≤ user_availableDays u →
  getFullYear (now env) = Some y →
  getFullYear (lp_startDate payload) = Some y →
  getFullYear (lp_endDate payload) = Some y →
  let leave :=
    mkLeave (uuid env) (caller env) (lp_startDate payload) (lp_endDate payload)
            (findDiffInDays (lp_startDate payload) (lp_endDate payload))
            LeaveStatuses.PENDING (time env) None in
  fst (requestLeave st env payload) = Ok leave ∧
  leaveStorage (snd (requestLeave st env payload)) = <[uuid env := leave]> (leaveStorage st) ∧
  (user_id u = caller env →
   balance (snd (requestLeave st env payload)) (caller env) =
   Some (adjusted (user_availableDays u) (leave_days leave) SUBTRACT)).
Proof.
  intros Hu Hact Hlt Hbal Hy Hs He leave. unfold requestLeave.
  rewrite Hu. unfold isActive. rewrite Hu, Hact. cbn [negb].
  destruct (Z.geb_spec (lp_startDate payload) (lp_endDate payload)) as [? | _]; [lia |].
  pose proof (findDiffInDays_pos (lp_startDate payload) (lp_endDate payload)) as Hpos.
  destruct (Z.eqb_spec (findDiffInDays (lp_startDate payload) (lp_endDate payload)) 0)
    as [? | _]; [lia |].
  destruct (Z.ltb_spec (user_availableDays u)
              (findDiffInDays (lp_startDate payload) (lp_endDate payload)))
    as [? | _]; [lia |].
  rewrite Hy, Hs, He. unfold number_lt, number_gt. rewrite Z.ltb_irrefl.
  cbn [orb fst snd leave_id leave_userId leave_days].
  split; [reflexivity |]. split.
  - rewrite updateUsersAvailableDays_leaves. reflexivity.
  - intros Hkey. apply updateUsersAvailableDays_balance; assumption.
Qed.

(** *** Status updates *)

(** On integers: for a stored leave whose owner is stored with a balance
    other than 0, an administrator's [updateLeaveStatus(id, REJECTED)]
    raises the owner's [availableDays] by exactly the leave's days, and
    [updateLeaveStatus(id, s)] for any other [s] lowers it by exactly
    the leave's days, in both cases when the new balance is not 0. *)
Theorem updateLeaveStatus_balance st env id status l u :
  isAdmin st env = true →
  isValidUUID id = true →
  leaveStorage st !! id = Some l →
  userStorage st !! leave_userId l = Some u →
  user_id u = leave_userId l →
  user_availableDays u ≠ 0 →
  let after := balance (snd (updateLeaveStatus st env id status)) (leave_userId l) in
  (status = LeaveStatuses.REJECTED →
   user_availableDays u + leave_days l ≠ 0 →
   after = Some (user_availableDays u + leave_days l)) ∧
  (status ≠ LeaveStatuses.REJECTED →
   user_availableDays u - leave_days l ≠ 0 →
   after = Some (user_availableDays u - leave_days l)).
Proof.
  intros Hadm Hid Hl Hu Hkey Hnz after.
  destruct (updateLeaveStatus_effect st env id status l u Hadm Hid Hl Hu Hkey)
    as [_ Hbal].
  subst after. rewrite Hbal. unfold adjusted.
  apply Z.eqb_neq in Hnz. rewrite Hnz. cbn [orb].
  split; intros Hst Hres.
  - apply String.eqb_eq in Hst. rewrite Hst.
    apply Z.eqb_neq in Hres. rewrite Hres. reflexivity.
  - apply String.eqb_neq in Hst. rewrite Hst.
    apply Z.eqb_neq in Hres. rewrite Hres. reflexivity.
Qed.

(** *** Requests *)

(** C4: a request whose day count exceeds the caller's [availableDays]
    fails and changes neither map; once the caller is active and the
    dates are in order the failure is the exceeding-balance message;
    and a day count within the balance, equality included, never gives
    that message. *)
Theorem requestLeave_exceeding_balance st env payload u :
  userStorage st !! caller env = Some u →
  let days := findDiffInDays (lp_startDate payload) (lp_endDate payload) in
  let exceeding := "You are exceeding your available days for leave!"%string in
  (user_availableDays u < days →
   ∃ msg, requestLeave st env payload = (Err msg, st)) ∧
  (user_availableDays u < days →
   user_isActive u = true →
   lp_startDate payload < lp_endDate payload →
   requestLeave st env payload = (Err exceeding, st)) ∧
  (days ≤ user_availableDays u →
   fst (requestLeave st env payload) ≠ Err exceeding).
Proof.
  intros Hu days exceeding. subst days exceeding.
  pose proof (findDiffInDays_pos (lp_startDate payload) (lp_endDate payload)) as Hpos.
  unfold requestLeave. rewrite Hu. unfold isActive. rewrite Hu.
  destruct (Z.eqb_spec (findDiffInDays (lp_startDate payload) (lp_endDate payload)) 0)
    as [? | _]; [lia |].
  repeat split.
  - intros Hlt. apply Z.ltb_lt in Hlt. rewrite Hlt.
    destruct (negb (user_isActive u)); [eauto |].
    destruct (lp_startDate payload >=? lp_endDate payload); eauto.
  - intros Hlt Hact Hord. apply Z.ltb_lt in Hlt. rewrite Hlt, Hact. cbn [negb].
    destruct (Z.geb_spec (lp_startDate payload) (lp_endDate payload)); [lia | reflexivity].
  - intros Hle.
    destruct (Z.ltb_spec (user_availableDays u)
                (findDiffInDays (lp_startDate payload) (lp_endDate payload)))
      as [? | _]; [lia |].
    destruct (negb (user_isActive u)); [discriminate |].
    destruct (lp_startDate payload >=? lp_endDate payload); [discriminate |].
    match goal with
    | |- context [if ?c then _ else _] => destruct c
    end; discriminate.
Qed.

(** C5: for [startDate < endDate], both in the current calendar year,
    and a sufficient balance, the leave returned by [requestLeave] has
    for [days] the span [|endDate - startDate| / oneDay] rounded to the
    nearest whole number [k] (halves going up), and at least 1; the
    other fields come from the payload and the environment, the payload
    having no [days] of its own. *)
Theorem requestLeave_days st env payload u y k :
  userStorage st !! caller env = Some u →
  user_isActive u = true →
  lp_startDate payload < lp_endDate payload →
  findDiffInDays (lp_startDate payload) (lp_endDate payload) ≤ user_availableDays u →
  getFullYear (now env) = Some y →
  getFullYear (lp_startDate payload) = Some y →
  getFullYear (lp_endDate payload) = Some y →
  (2 * k - 1) * oneDay ≤ 2 * Z.abs (lp_endDate payload - lp_startDate payload)
    < (2 * k + 1) * oneDay →
  fst (requestLeave st env payload) =
  Ok (mkLeave (uuid env) (caller env) (lp_startDate payload) (lp_endDate payload)
              (Z.max 1 k) LeaveStatuses.PENDING (time env) None).
Proof.
  intros Hu Hact Hlt Hbal Hy Hs He Hk.
  destruct (requestLeave_effect st env payload u y Hu Hact Hlt Hbal Hy Hs He)
    as [Hok _].
  rewrite Hok. rewrite (findDiffInDays_rounds _ _ k Hk). reflexivity.
Qed.

(** *** Users *)

Lemma isUserExists_empty st email :
  userStorage st = ∅ → isUserExists st email = false.
Proof.
  intros Hemp. unfold isUserExists, values. rewrite Hemp, map_to_list_empty.
  reflexivity.
Qed.

(** On an empty directory a payload with a name and a well-formed email
    is accepted. *)
Lemma createUser_first_accepted st env payload :
  userStorage st = ∅ →
  truthy_string (cp_name payload) = true →
  truthy_string (cp_email payload) = true →
  isValidEmail (cp_email payload) = true →
  is_Ok (fst (createUser st env payload)) = true.
Proof.
  intros Hemp Hn He Hv. unfold createUser.
  rewrite Hn, He, Hv, (isUserExists_empty _ _ Hemp). reflexivity.
Qed.

(** C6: the user returned by [createUser] on an empty directory is
    active and administrator; the user returned on a directory that is
    not empty is neither; and every created user starts with 21
    available days. *)
Theorem createUser_flags st env payload user st' :
  createUser st env payload = (Ok user, st') →
  (userStorage st = ∅ → user_isActive user = true ∧ user_isAdmin user = true) ∧
  (userStorage st ≠ ∅ → user_isActive user = false ∧ user_isAdmin user = false) ∧
  user_availableDays user = 21.
Proof.
  unfold createUser. intros Hc.
  repeat case_match; try discriminate.
  injection Hc as Hu _. subst user. cbn [user_isActive user_isAdmin user_availableDays].
  split; [| split; [| reflexivity]].
  - intros Hemp. apply isEmpty_spec in Hemp. rewrite Hemp. split; reflexivity.
  - intros Hne.
    destruct (isEmpty (userStorage st)) eqn:Hemp; [| split; reflexivity].
    apply isEmpty_spec in Hemp. contradiction.
Qed.

(** *** Errors leave the maps alone *)

Lemma updateUserParams_error st env payload msg st' :
  updateUserParams st env payload = (Err msg, st') → st' = st.
Proof.
  unfold updateUserParams. intros He.
  repeat case_match; simplify_eq; reflexivity.
Qed.

Lemma createUser_error st env payload msg st' :
  createUser st env payload = (Err msg, st') → st' = st.
Proof.
  unfold createUser. intros He.
  repeat case_match; simplify_eq; reflexivity.
Qed.

Lemma promoteUser_error st env payload msg st' :
  promoteUser st env payload = (Err msg, st') → st' = st.
Proof.
  unfold promoteUser. intros He.
  repeat (case_match; try (simplify_eq; reflexivity));
    eapply updateUserParams_error; eassumption.
Qed.

Lemma updateUser_error st env payload msg st' :
  updateUser st env payload = (Err msg, st') → st' = st.
Proof.
  unfold updateUser. intros He.
  case_match; [simplify_eq; reflexivity |].
  eapply updateUserParams_error; eassumption.
Qed.

Lemma requestLeave_error st env payload msg st' :
  requestLeave st env payload = (Err msg, st') → st' = st.
Proof.
  unfold requestLeave. intros He.
  repeat (case_match; try (simplify_eq; reflexivity)).
Qed.

Lemma updateLeave_error st env id payload msg st' :
  updateLeave st env id payload = (Err msg, st') → st' = st.
Proof.
  unfold updateLeave. intros He.
  repeat (case_match; try (simplify_eq; reflexivity)).
Qed.

Lemma deleteLeave_error st env id msg st' :
  deleteLeave st env id = (Err msg, st') → st' = st.
Proof.
  unfold deleteLeave. intros He.
  repeat (case_match; try (simplify_eq; reflexivity)).
Qed.

Lemma updateLeaveStatus_error st env id status msg st' :
  updateLeaveStatus st env id status = (Err msg, st') → st' = st.
Proof.
  unfold updateLeaveStatus. intros He.
  repeat (case_match; try (simplify_eq; reflexivity)).
Qed.

Lemma reply_error {A : Type} (wrap : A → Reply) (r : Result A string) msg :
  reply wrap r = Err msg → r = Err msg.
Proof. destruct r; cbn; congruence. Qed.

(** C9: every call of the service returns a success value or an error
    message ([perform] is a total function into [Result]), and whenever
    the answer is an error both maps are exactly what they were before
    the call; [updateLeave] needs no exception. *)
Theorem perform_error_keeps_state st env call msg st' :
  perform st env call = (Err msg, st') → st' = st.
Proof.
  destruct call; cbn [perform]; intros He;
    try (injection He as _ <-; reflexivity);
    match type of He with
    | (let '(_, _) := ?op in _) = _ =>
        destruct op as [r st''] eqn:Hop; injection He as Hr <-;
        apply reply_error in Hr; subst r
    end.
  - eapply createUser_error; eassumption.
  - eapply deleteLeave_error; eassumption.
  - eapply promoteUser_error; eassumption.
  - eapply requestLeave_error; eassumption.
  - eapply updateLeave_error; eassumption.
  - eapply updateLeaveStatus_error; eassumption.
  - eapply updateUser_error; eassumption.
Qed.

(** *** Adjustments that do nothing *)

(** C10: a balance adjustment is skipped, without any error reaching the
    caller of the service, when the stored balance is 0 and when the
    adjusted balance would be 0: (1) with a stored balance of 0
    [updateUsersAvailableDays] answers an error and writes nothing;
    (2) when the sum or difference is 0 the stored balance stays;
    (3) rejecting a leave of an owner at 0 succeeds and leaves 0;
    (4) deleting a PENDING leave of an owner at 0 succeeds and leaves 0;
    (5) a request for exactly the remaining days succeeds and leaves
    the balance as it was. *)
Theorem balance_adjustment_skipped_at_zero :
  (∀ st env userId u d op,
     userStorage st !! userId = Some u →
     user_availableDays u = 0 →
     ∃ msg, updateUsersAvailableDays st env userId d op = (Err msg, st)) ∧
  (∀ st env userId u d op,
     userStorage st !! userId = Some u →
     user_id u = userId →
     match op with
     | ADD => user_availableDays u + d
     | SUBTRACT => user_availableDays u - d
     end = 0 →
     balance (snd (updateUsersAvailableDays st env userId d op)) userId =
     Some (user_availableDays u)) ∧
  (∀ st env id l u,
     isAdmin st env = true →
     isValidUUID id = true →
     leaveStorage st !! id = Some l →
     userStorage st !! leave_userId l = Some u →
     user_id u = leave_userId l →
     user_availableDays u = 0 →
     is_Ok (fst (updateLeaveStatus st env id LeaveStatuses.REJECTED)) = true ∧
     balance (snd (updateLeaveStatus st env id LeaveStatuses.REJECTED)) (leave_userId l)
     = Some 0) ∧
  (∀ st env id l u,
     isValidUUID id = true →
     leaveStorage st !! id = Some l →
     leave_status l = LeaveStatuses.PENDING →
     userStorage st !! leave_userId l = Some u →
     user_id u = leave_userId l →
     user_availableDays u = 0 →
     fst (deleteLeave st env id) = Ok l ∧
     balance (snd (deleteLeave st env id)) (leave_userId l) = Some 0) ∧
  (∀ st env payload u y,
     userStorage st !! caller env = Some u →
     user_id u = caller env →
     user_isActive u = true →
     lp_startDate payload < lp_endDate payload →
     findDiffInDays (lp_startDate payload) (lp_endDate payload) = user_availableDays u →
     getFullYear (now env) = Some y →
     getFullYear (lp_startDate payload) = Some y →
     getFullYear (lp_endDate payload) = Some y →
     is_Ok (fst (requestLeave st env payload)) = true ∧
     balance (snd (requestLeave st env payload)) (caller env) =
     Some (user_availableDays u)).
Proof.
  repeat apply conj.
  - intros st env userId u d op Hu H0. unfold updateUsersAvailableDays.
    rewrite Hu, H0. cbn. eauto.
  - intros st env userId u d op Hu Hkey Hres.
    rewrite (updateUsersAvailableDays_balance st env userId u d op Hu Hkey).
    unfold adjusted. destruct op; rewrite Hres, orb_true_r; reflexivity.
  - intros st env id l u Hadm Hid Hl Hu Hkey H0.
    destruct (updateLeaveStatus_effect st env id LeaveStatuses.REJECTED l u
                Hadm Hid Hl Hu Hkey) as [Hok Hbal].
    split; [exact Hok |]. rewrite Hbal, H0. reflexivity.
  - intros st env id l u Hid Hl Hst Hu Hkey H0.
    assert (Hna : leave_status l ≠ "ACCEPTED"%string) by (rewrite Hst; discriminate).
    destruct (deleteLeave_effect st env id l Hid Hl Hna) as (Hok & _ & Hbal).
    split; [exact Hok |]. rewrite (Hbal u Hu Hkey), Hst, H0. reflexivity.
  - intros st env payload u y Hu Hkey Hact Hlt Hd Hy Hs He.
    destruct (requestLeave_effect st env payload u y Hu Hact Hlt
                ltac:(lia) Hy Hs He) as (Hok & _ & Hbal).
    split; [rewrite Hok; reflexivity |].
    rewrite (Hbal Hkey). cbn [leave_days]. unfold adjusted.
    rewrite Hd, Z.sub_diag, orb_true_r. reflexivity.
Qed.

(** *** Where the code parts from its documentation *)

(** With a recognized status the answer is the one of
    [getMyLeaveRequests]: the status takes no part in the selection. *)
Lemma getMyLeaveRequestsByStatus_any_status st env status :
  In status LeaveStatuses.values →
  getMyLeaveRequestsByStatus st env status = getMyLeaveRequests st env.
Proof.
  intros Hin. unfold getMyLeaveRequestsByStatus, getMyLeaveRequests.
  destruct (negb (isActive st env)); [reflexivity |].
  cbn in Hin. destruct Hin as [<- | [<- | [<- | []]]]; reflexivity.
Qed.

(** [updateUserParams] only ever raises the two flags: a payload cannot
    clear [isActive] or [isAdmin]. *)
Lemma updateUserParams_keeps_flags st env payload pid u u' st' :
  up_id payload = Some pid →
  userStorage st !! pid = Some u →
  updateUserParams st env payload = (Ok u', st') →
  (user_isActive u = true → user_isActive u' = true) ∧
  (user_isAdmin u = true → user_isAdmin u' = true).
Proof.
  intros Hpid Hu. unfold updateUserParams. rewrite Hpid, Hu. intros Hr.
  repeat case_match; simplify_eq; cbn; auto.
Qed.

(** Granting [isAdmin] also activates the target. *)
Lemma promoteUser_admin_activates st env payload u :
  isAdmin st env = true →
  userStorage st !! pp_id payload = Some u →
  principal_strict_eq (pp_id payload) (caller env) = false →
  pp_isAdmin payload = Some true →
  ∃ u' st', promoteUser st env payload = (Ok u', st') ∧
            user_isActive u' = true ∧ user_isAdmin u' = true ∧
            userStorage st' !! user_id u = Some u'.
Proof.
  intros Hadm Hu Hself Hp. unfold promoteUser, updateUserParams.
  rewrite Hadm, Hu, Hself, Hp. cbn. rewrite Hu.
  eexists _, _. split; [reflexivity |]. cbn.
  rewrite lookup_insert_eq. auto.
Qed.

(** *** Reachable states *)

Lemma consistent_users st st' :
  consistent st →
  leaveStorage st' = leaveStorage st →
  users_step st st' →
  consistent st'.
Proof.
  intros [Hk Hl Ho Hb] Hleaves [Hsame | (u' & Hnz & Hins)].
  - split; rewrite ?Hleaves, ?Hsame; assumption.
  - split; rewrite ?Hleaves, ?Hins.
    + intros k u. rewrite lookup_insert. case_decide; [congruence | apply Hk].
    + assumption.
    + intros k l Hkl. rewrite lookup_insert_is_Some.
      destruct (decide (user_id u' = leave_userId l)); [left; assumption |].
      right. split; [assumption | eapply Ho; eassumption].
    + intros k u. rewrite lookup_insert. case_decide; [congruence | apply Hb].
Qed.

Lemma consistent_insert_leave st l :
  consistent st →
  is_Some (userStorage st !! leave_userId l) →
  consistent (mkStorage (userStorage st) (<[leave_id l := l]> (leaveStorage st))).
Proof.
  intros [Hk Hl Ho Hb] Howner. split; cbn [userStorage leaveStorage]; try assumption.
  - intros k l'. rewrite lookup_insert. case_decide; [congruence | apply Hl].
  - intros k l'. rewrite lookup_insert. case_decide; [congruence | apply Ho].
Qed.

Lemma consistent_delete_leave st id :
  consistent st →
  consistent (mkStorage (userStorage st) (delete id (leaveStorage st))).
Proof.
  intros [Hk Hl Ho Hb]. split; cbn [userStorage leaveStorage]; try assumption.
  - intros k l. rewrite lookup_delete. case_decide; [discriminate | apply Hl].
  - intros k l. rewrite lookup_delete. case_decide; [discriminate | apply Ho].
Qed.

Lemma updateUserParams_step st env payload :
  consistent st →
  leaveStorage (snd (updateUserParams st env payload)) = leaveStorage st ∧
  users_step st (snd (updateUserParams st env payload)).
Proof.
  intros Hc. unfold updateUserParams.
  destruct (up_id payload) as [pid|]; [| split; [reflexivity | left; reflexivity]].
  destruct (userStorage st !! pid) as [u|] eqn:Hu;
    [| split; [reflexivity | left; reflexivity]].
  pose proof (balances_nonzero st Hc pid u Hu) as Hnz.
  assert (Hd : ∀ d, truthy_number d = true → d ≠ 0)
    by (unfold truthy_number; intros d Hd ->; discriminate).
  repeat case_match; cbn [snd leaveStorage userStorage];
    (split; [reflexivity |]); try (left; reflexivity);
    match goal with
    | |- users_step _ (mkStorage (<[_ := ?x]> _) _) =>
        right; exists x; split; [cbn; auto | reflexivity]
    end.
Qed.

Lemma updateUsersAvailableDays_step st env userId d op :
  consistent st →
  consistent (snd (updateUsersAvailableDays st env userId d op)).
Proof.
  intros Hc. unfold updateUsersAvailableDays.
  cbv zeta. destruct (userStorage st !! userId) as [u|]; [| assumption].
  destruct (negb (truthy_number (user_availableDays u))); [assumption |].
  match goal with
  | |- consistent (snd (updateUserParams ?s ?e ?p)) =>
      destruct (updateUserParams_step s e p Hc) as [Hl Hs];
      eapply consistent_users; eassumption
  end.
Qed.

(** Every call of the service keeps the two maps consistent. *)
Lemma perform_consistent st env call :
  consistent st → consistent (snd (perform st env call)).
Proof.
  intros Hc. destruct call; cbn [perform]; try assumption;
    match goal with
    | |- context [let '(_, _) := ?op in _] =>
        let H := fresh "Hop" in
        destruct op as [r st'] eqn:H; cbn [snd];
        apply (f_equal snd) in H; cbn [snd] in H; subst st'
    end.
  - (* createUser *)
    unfold createUser. repeat case_match; try assumption. cbn [snd].
    eapply consistent_users; [exact Hc | reflexivity |].
    match goal with
    | |- users_step _ (mkStorage (<[_ := ?x]> _) _) =>
        right; exists x; split; [discriminate | reflexivity]
    end.
  - (* deleteLeave *)
    unfold deleteLeave. repeat case_match; try assumption; cbn [snd].
    + apply updateUsersAvailableDays_step, consistent_delete_leave, Hc.
    + apply consistent_delete_leave, Hc.
  - (* promoteUser *)
    unfold promoteUser. repeat case_match; try assumption;
      match goal with
      | |- consistent (snd (updateUserParams ?s ?e ?p)) =>
          destruct (updateUserParams_step s e p Hc) as [Hl Hs];
          eapply consistent_users; eassumption
      end.
  - (* requestLeave *)
    unfold requestLeave. repeat case_match; try assumption; cbn [snd].
    apply updateUsersAvailableDays_step.
    apply (consistent_insert_leave st
             (mkLeave (uuid env) (caller env) (lp_startDate payload)
                (lp_endDate payload)
                (findDiffInDays (lp_startDate payload) (lp_endDate payload))
                LeaveStatuses.PENDING (time env) None) Hc).
    cbn [leave_userId]. eauto.
  - (* updateLeave *)
    unfold updateLeave. repeat case_match; try assumption; cbn [snd].
    match goal with
    | Hl : leaveStorage st !! id = Some ?l |- _ =>
        apply (consistent_insert_leave st
                 (mkLeave (leave_id l) (leave_userId l) (lp_startDate payload)
                    (lp_endDate payload)
                    (findDiffInDays (lp_startDate payload) (lp_endDate payload))
                    (leave_status l) (leave_createdAt l) (Some (time env))) Hc);
        cbn [leave_userId]; eapply owners_stored; eassumption
    end.
  - (* updateLeaveStatus *)
    unfold updateLeaveStatus. repeat case_match; try assumption; cbn [snd];
      apply updateUsersAvailableDays_step;
      match goal with
      | Hl : leaveStorage st !! id = Some ?l |- _ =>
          apply (consistent_insert_leave st
                   (mkLeave (leave_id l) (leave_userId l) (leave_startDate l)
                      (leave_endDate l) (leave_days l) status (leave_createdAt l)
                      (Some (time env))) Hc);
          cbn [leave_userId]; eapply owners_stored; eassumption
      end.
  - (* updateUser *)
    unfold updateUser. case_match; [assumption |].
    match goal with
    | |- consistent (snd (updateUserParams ?s ?e ?p)) =>
        destruct (updateUserParams_step s e p Hc) as [Hl Hs];
        eapply consistent_users; eassumption
    end.
Qed.

Lemma reachable_consistent st : reachable st → consistent st.
Proof.
  induction 1 as [| st env call _ IH].
  - split; cbn [userStorage leaveStorage]; intros k x Hx;
      rewrite lookup_empty in Hx; discriminate.
  - apply perform_consistent, IH.
Qed.

(** In a reachable state the hypotheses on the owner come for free: a
    status update by an administrator moves the owner's balance by the
    leave's days, up for REJECTED and down otherwise, unless that would
    make it 0. *)
Lemma updateLeaveStatus_reachable st env id status l :
  reachable st →
  isAdmin st env = true →
  isValidUUID id = true →
  leaveStorage st !! id = Some l →
  ∃ u, userStorage st !! leave_userId l = Some u ∧
       balance (snd (updateLeaveStatus st env id status)) (leave_userId l) =
       Some (let moved :=
               if String.eqb status LeaveStatuses.REJECTED
               then user_availableDays u + leave_days l
               else user_availableDays u - leave_days l in
             if moved =? 0 then user_availableDays u else moved).
Proof.
  intros Hr Hadm Hid Hl. apply reachable_consistent in Hr.
  destruct (owners_stored st Hr id l Hl) as [u Hu]. exists u.
  split; [exact Hu |].
  pose proof (users_keyed st Hr _ _ Hu) as Hkey.
  pose proof (balances_nonzero st Hr _ _ Hu) as Hnz.
  destruct (updateLeaveStatus_effect st env id status l u Hadm Hid Hl Hu Hkey)
    as [_ Hbal].
  rewrite Hbal. unfold adjusted. apply Z.eqb_neq in Hnz. rewrite Hnz. cbn [orb].
  destruct (String.eqb status LeaveStatuses.REJECTED); reflexivity.
Qed.

End Properties.

(** * Status updates on numbers that may be NaN *)

Section PropertiesOnNumbers.

Context `{platform : Platform}.

Lemma updateUserParams_num_balance_only st env uid u d :
  numUserStorage st !! uid = Some u →
  updateUserParams_num st env (mkNumUserPayload (Some uid) None None None None (Some d)) =
  let u' := if truthy d
            then set_nuser_availableDays d (set_nuser_updatedAt (Some (time env)) u)
            else set_nuser_updatedAt (Some (time env)) u in
  (Ok u', mkNumStorage (<[nuser_id u := u']> (numUserStorage st)) (numLeaveStorage st)).
Proof.
  intros Hu. unfold updateUserParams_num.
  cbn [nup_id nup_availableDays nup_isActive nup_isAdmin nup_name nup_email].
  rewrite Hu. reflexivity.
Qed.

(** The balance after [updateUsersAvailableDays]: the adjusted balance
    when the stored one and the adjusted one are both truthy, the
    stored one otherwise. *)
Lemma updateUsersAvailableDays_num_balance st env uid u d op :
  numUserStorage st !! uid = Some u →
  nuser_id u = uid →
  balance_num (snd (updateUsersAvailableDays_num st env uid d op)) uid =
  Some (let a := nuser_availableDays u in
        let a' := match op with ADD => number_add a d | SUBTRACT => number_sub a d end in
        if truthy a && truthy a' then a' else a).
Proof.
  intros Hu Hkey. unfold updateUsersAvailableDays_num, balance_num. cbv zeta.
  rewrite Hu. destruct (truthy (nuser_availableDays u)) eqn:Ha; cbn [negb andb snd].
  - rewrite (updateUserParams_num_balance_only _ _ _ _ _ Hu). cbv zeta.
    cbn [snd numUserStorage]. rewrite Hkey, lookup_insert_eq.
    destruct op;
      match goal with
      | |- context [truthy ?x] => destruct (truthy x)
      end; reflexivity.
  - rewrite Hu. reflexivity.
Qed.

Lemma updateLeaveStatus_num_effect st env id status l u :
  isAdmin_num st env = true →
  isValidUUID id = true →
  numLeaveStorage st !! id = Some l →
  numUserStorage st !! nleave_userId l = Some u →
  nuser_id u = nleave_userId l →
  is_Ok (fst (updateLeaveStatus_num st env id status)) = true ∧
  balance_num (snd (updateLeaveStatus_num st env id status)) (nleave_userId l) =
  Some (let a := nuser_availableDays u in
        let a' := if String.eqb status LeaveStatuses.REJECTED
                  then number_add a (nleave_days l) else number_sub a (nleave_days l) in
        if truthy a && truthy a' then a' else a).
Proof.
  intros Hadm Hid Hl Hu Hkey. unfold updateLeaveStatus_num.
  rewrite Hadm, Hid, Hl. cbn [negb fst snd is_Ok]. split; [reflexivity |].
  destruct (String.eqb status LeaveStatuses.REJECTED);
    apply updateUsersAvailableDays_num_balance; assumption.
Qed.

(** C1 (amended): for a stored leave whose [days] is a whole number and
    whose owner is stored with a whole-number balance other than 0 (safe
    integers both), an administrator's [updateLeaveStatus(id, REJECTED)]
    raises the owner's [availableDays] by exactly the leave's days, and
    [updateLeaveStatus(id, s)] for any other [s] lowers it by exactly
    the leave's days, in both cases when the new balance is a safe
    integer other than 0. *)
Theorem updateLeaveStatus_num_balance st env id status l u a d :
  isAdmin_num st env = true →
  isValidUUID id = true →
  numLeaveStorage st !! id = Some l →
  numUserStorage st !! nleave_userId l = Some u →
  nuser_id u = nleave_userId l →
  nuser_availableDays u = Num a →
  nleave_days l = Num d →
  safe_integer a →
  safe_integer d →
  a ≠ 0 →
  let after :=
    balance_num (snd (updateLeaveStatus_num st env id status)) (nleave_userId l) in
  (status = LeaveStatuses.REJECTED →
   safe_integer (a + d) → a + d ≠ 0 →
   after = Some (Num (a + d))) ∧
  (status ≠ LeaveStatuses.REJECTED →
   safe_integer (a - d) → a - d ≠ 0 →
   after = Some (Num (a - d))).
Proof.
  intros Hadm Hid Hl Hu Hkey Ha Hd _ _ Hnz after.
  destruct (updateLeaveStatus_num_effect st env id status l u Hadm Hid Hl Hu Hkey)
    as [_ Hbal].
  subst after. rewrite Hbal, Ha, Hd. cbv zeta. cbn [truthy number_add number_sub].
  apply Z.eqb_neq in Hnz. rewrite Hnz. cbn [negb andb].
  split; intros Hst _ Hres.
  - apply String.eqb_eq in Hst. rewrite Hst. cbn [truthy].
    apply Z.eqb_neq in Hres. rewrite Hres. reflexivity.
  - apply String.eqb_neq in Hst. rewrite Hst. cbn [truthy].
    apply Z.eqb_neq in Hres. rewrite Hres. reflexivity.
Qed.

(** For a leave whose [days] is NaN the update succeeds and the owner's
    balance stays, whatever the status: the adjusted balance is NaN and
    is not written. *)
Lemma updateLeaveStatus_num_nan_days st env id status l u :
  isAdmin_num st env = true →
  isValidUUID id = true →
  numLeaveStorage st !! id = Some l →
  numUserStorage st !! nleave_userId l = Some u →
  nuser_id u = nleave_userId l →
  nleave_days l = NaN →
  is_Ok (fst (updateLeaveStatus_num st env id status)) = true ∧
  balance_num (snd (updateLeaveStatus_num st env id status)) (nleave_userId l) =
  Some (nuser_availableDays u).
Proof.
  intros Hadm Hid Hl Hu Hkey Hd.
  destruct (updateLeaveStatus_num_effect st env id status l u Hadm Hid Hl Hu Hkey)
    as [Hok Hbal].
  split; [exact Hok |]. rewrite Hbal, Hd. cbv zeta.
  destruct (nuser_availableDays u), (String.eqb status LeaveStatuses.REJECTED);
    cbn [number_add number_sub truthy andb]; rewrite ?andb_false_r; reflexivity.
Qed.

(** On a state of integers the functions on numbers do what the
    functions on integers do. *)
Lemma updateUsersAvailableDays_as_numbers st env uid d op :
  snd (updateUsersAvailableDays_num (as_numbers st) env uid (Num d) op) =
  as_numbers (snd (updateUsersAvailableDays st env uid d op)).
Proof.
  unfold updateUsersAvailableDays_num, updateUsersAvailableDays. cbv zeta.
  cbn [as_numbers numUserStorage]. rewrite lookup_fmap.
  destruct (userStorage st !! uid) as [u|] eqn:Hu; cbn [fmap option_fmap option_map];
    [| reflexivity].
  cbn [user_as_numbers nuser_availableDays truthy]. fold (truthy_number (user_availableDays u)).
  destruct (truthy_number (user_availableDays u)); cbn [negb]; [| reflexivity].
  rewrite (updateUserParams_balance_only _ _ _ _ _ Hu).
  assert (Hu' : numUserStorage (as_numbers st) !! uid = Some (user_as_numbers u))
    by (cbn [as_numbers numUserStorage]; rewrite lookup_fmap, Hu; reflexivity).
  rewrite (updateUserParams_num_balance_only _ _ _ _ _ Hu'). cbv zeta. cbn [snd].
  unfold as_numbers at 3. cbn [userStorage leaveStorage as_numbers numUserStorage
                                numLeaveStorage user_as_numbers nuser_id].
  rewrite fmap_insert. f_equal. f_equal.
  destruct op; cbn [number_add number_sub truthy];
    fold (truthy_number (user_availableDays u + d));
    fold (truthy_number (user_availableDays u - d));
    match goal with
    | |- context [truthy_number ?x] => destruct (truthy_number x)
    end; reflexivity.
Qed.

Lemma updateLeaveStatus_as_numbers st env id status :
  updateLeaveStatus_num (as_numbers st) env id status =
  (match fst (updateLeaveStatus st env id status) with
   | Ok leave => Ok (leave_as_numbers leave)
   | Err message => Err message
   end,
   as_numbers (snd (updateLeaveStatus st env id status))).
Proof.
  unfold updateLeaveStatus_num, updateLeaveStatus, isAdmin_num, isAdmin.
  cbn [as_numbers numUserStorage numLeaveStorage]. rewrite !lookup_fmap.
  destruct (userStorage st !! caller env) as [c|]; cbn [fmap option_fmap option_map];
    [| reflexivity].
  cbn [user_as_numbers nuser_isAdmin].
  destruct (negb (user_isAdmin c)); [reflexivity |].
  destruct (negb (isValidUUID id)); [reflexivity |].
  destruct (leaveStorage st !! id) as [l|]; cbn [fmap option_fmap option_map];
    [| reflexivity].
  cbn [fst snd leave_as_numbers nleave_id nleave_userId nleave_startDate nleave_endDate
       nleave_days nleave_status nleave_createdAt].
  f_equal.
  set (updated := mkLeave (leave_id l) (leave_userId l) (leave_startDate l)
                    (leave_endDate l) (leave_days l) status (leave_createdAt l)
                    (Some (time env))).
  assert (Hst1 :
    mkNumStorage (user_as_numbers <$> userStorage st)
      (<[leave_id l := leave_as_numbers updated]> (leave_as_numbers <$> leaveStorage st))
    = as_numbers (mkStorage (userStorage st) (<[leave_id l := updated]> (leaveStorage st)))).
  { unfold as_numbers. cbn [userStorage leaveStorage]. rewrite fmap_insert. reflexivity. }
  change (mkNumLeave (leave_id l) (leave_userId l) (Num (leave_startDate l))
            (Num (leave_endDate l)) (Num (leave_days l)) status (leave_createdAt l)
            (Some (time env))) with (leave_as_numbers updated).
  rewrite Hst1.
  destruct (String.eqb status LeaveStatuses.REJECTED);
    apply updateUsersAvailableDays_as_numbers.
Qed.

End PropertiesOnNumbers.

(** * The canister on the sample data *)

Section Runs.

#[local] Existing Instance Utc.platform.

Import Sample.

Local Open Scope string_scope.

(** ** Status updates *)

(** C1 as first stated does not hold: approving Bob's pending leave
    takes its 4 days off his balance, from 17 to 13, so a status other
    than REJECTED does move the balance. *)
Lemma updateLeaveStatus_approved_counterexample :
  leaveStorage st !! bob_leave_id = Some bob_leave ∧
  leave_userId bob_leave = "bob" ∧
  In LeaveStatuses.APPROVED LeaveStatuses.values ∧
  LeaveStatuses.APPROVED ≠ LeaveStatuses.REJECTED ∧
  balance st "bob" = Some 17%Z ∧
  balance (snd (updateLeaveStatus st as_alice bob_leave_id LeaveStatuses.APPROVED)) "bob"
  ≠ balance st "bob".
Proof.
  split_and!; try reflexivity.
  - cbn. auto.
  - discriminate.
  - vm_compute. discriminate.
Qed.

Lemma updateLeaveStatus_balance_witness :
  isAdmin st as_alice = true ∧
  leaveStorage st !! bob_leave_id = Some bob_leave ∧
  userStorage st !! "bob" = Some bob ∧
  balance (snd (updateLeaveStatus st as_alice bob_leave_id LeaveStatuses.REJECTED)) "bob"
  = Some 21%Z ∧
  balance (snd (updateLeaveStatus st as_alice bob_leave_id LeaveStatuses.APPROVED)) "bob"
  = Some 13%Z.
Proof.
  do 3 (split; [reflexivity |]). split.
  - refine (proj1 (updateLeaveStatus_balance st as_alice bob_leave_id
                     LeaveStatuses.REJECTED bob_leave bob _ _ _ _ _ _) _ _);
      (reflexivity || discriminate).
  - refine (proj2 (updateLeaveStatus_balance st as_alice bob_leave_id
                     LeaveStatuses.APPROVED bob_leave bob _ _ _ _ _ _) _ _);
      (reflexivity || discriminate).
Defined.

(** ** Requests *)

(** Bob has 17 days: 20 days are refused, 17 are not. *)
Lemma requestLeave_exceeding_balance_witness :
  userStorage st !! caller as_bob = Some bob ∧
  requestLeave st as_bob (mkLeavePayload (january 10) (january 30)) =
  (Err "You are exceeding your available days for leave!", st) ∧
  fst (requestLeave st as_bob (mkLeavePayload (january 10) (january 27))) ≠
  Err "You are exceeding your available days for leave!".
Proof.
  split; [reflexivity |]. split.
  - apply (requestLeave_exceeding_balance st as_bob
             (mkLeavePayload (january 10) (january 30)) bob eq_refl);
      vm_compute; reflexivity.
  - apply (requestLeave_exceeding_balance st as_bob
             (mkLeavePayload (january 10) (january 27)) bob eq_refl).
    vm_compute. discriminate.
Defined.

(** Four days and a half count for 5. *)
Lemma requestLeave_days_witness :
  fst (requestLeave st as_bob (mkLeavePayload (january 10) (january 14 + oneDay / 2))) =
  Ok (mkLeave fresh_id "bob" (january 10) (january 14 + oneDay / 2) 5
              LeaveStatuses.PENDING 410 None).
Proof.
  apply (requestLeave_days st as_bob
           (mkLeavePayload (january 10) (january 14 + oneDay / 2)) bob 2023%Z 5%Z);
    [reflexivity | reflexivity | reflexivity | vm_compute; discriminate
    | reflexivity | reflexivity | reflexivity
    | split; vm_compute; (discriminate || reflexivity)].
Defined.

(** C2, the code at the failing input: Bob, whose leave from 1 to 5
    January is stored, asks for 3 to 6 January; the ranges overlap, yet
    the request succeeds, the new leave is stored and 3 more days leave
    his balance, whatever [===] answers on principals. *)
Theorem requestLeave_overlap_accepted (strict_eq : Principal → Principal → bool) :
  let platform :=
    Build_Platform Utc.email_regex_test Utc.isValidUUID Utc.getFullYear strict_eq in
  let payload := mkLeavePayload (january 3) (january 6) in
  let leave :=
    mkLeave fresh_id "bob" (january 3) (january 6) 3 LeaveStatuses.PENDING 410 None in
  leaveStorage st !! bob_leave_id = Some bob_leave ∧
  overlaps bob_leave (january 3) (january 6) = true ∧
  fst (requestLeave st as_bob payload) = Ok leave ∧
  leaveStorage (snd (requestLeave st as_bob payload)) !! fresh_id = Some leave ∧
  balance (snd (requestLeave st as_bob payload)) "bob" = Some 14%Z.
Proof.
  intros platform payload leave.
  destruct (requestLeave_effect (platform := platform) st as_bob payload bob 2023%Z)
    as (Hok & Hleaves & Hbal); try reflexivity.
  { vm_compute. discriminate. }
  split; [reflexivity |]. split; [reflexivity |]. split; [exact Hok |]. split.
  - rewrite Hleaves. apply lookup_insert_eq.
  - apply Hbal. reflexivity.
Qed.

(** ** Deletion *)

(** C3, the code at the failing input: Bob's leave has been APPROVED;
    [deleteLeave] still succeeds and removes it (without a refund),
    where its documentation has it refuse anything but a PENDING leave. *)
Theorem deleteLeave_approved_accepted :
  leaveStorage st_approved !! bob_leave_id = Some bob_approved ∧
  leave_status bob_approved = LeaveStatuses.APPROVED ∧
  deleteLeave st_approved as_bob bob_leave_id =
  (Ok bob_approved,
   mkStorage (userStorage st_approved) (delete bob_leave_id (leaveStorage st_approved))) ∧
  leaveStorage (snd (deleteLeave st_approved as_bob bob_leave_id)) !! bob_leave_id = None.
Proof.
  split_and!; reflexivity.
Qed.

(** ** Users *)

(** C7, the code at the failing input: Alice, an administrator,
    deactivates Carol, an active administrator; the call succeeds and
    Carol is stored active and administrator as before. *)
Theorem promoteUser_deactivation_keeps_admin :
  let payload := mkPromoteUserPayload "carol" (Some false) (Some false) in
  let carol' := set_user_updatedAt (Some 400%N) carol in
  isAdmin st as_alice = true ∧
  fst (promoteUser st as_alice payload) = Ok carol' ∧
  userStorage (snd (promoteUser st as_alice payload)) !! "carol" = Some carol' ∧
  user_isAdmin carol' = true ∧
  user_isActive carol' = true.
Proof.
  cbv zeta. split_and!; reflexivity.
Qed.

(** The first user of a directory, and a later one. *)
Lemma createUser_flags_witness :
  let first := mkUser "alice" "Alice" "alice@example.org" true true 21 400 (Some 400%N) in
  let later := mkUser "erin" "Erin" "erin@example.org" false false 21 430 (Some 430%N) in
  fst (createUser (mkStorage ∅ ∅) as_alice
         (mkCreateOrEditUserPayload "Alice" "alice@example.org")) = Ok first ∧
  (user_isActive first = true ∧ user_isAdmin first = true) ∧
  fst (createUser st (mkEnv "erin" 430 (january 10) fresh_id)
         (mkCreateOrEditUserPayload "Erin" "erin@example.org")) = Ok later ∧
  (user_isActive later = false ∧ user_isAdmin later = false) ∧
  user_availableDays later = 21%Z.
Proof.
  intros first later.
  assert (Hrun1 : createUser (mkStorage ∅ ∅) as_alice
                     (mkCreateOrEditUserPayload "Alice" "alice@example.org") =
                   (Ok first,
                    snd (createUser (mkStorage ∅ ∅) as_alice
                           (mkCreateOrEditUserPayload "Alice" "alice@example.org"))))
    by (vm_compute; reflexivity).
  assert (Hrun2 : createUser st (mkEnv "erin" 430 (january 10) fresh_id)
                     (mkCreateOrEditUserPayload "Erin" "erin@example.org") =
                   (Ok later,
                    snd (createUser st (mkEnv "erin" 430 (january 10) fresh_id)
                           (mkCreateOrEditUserPayload "Erin" "erin@example.org"))))
    by (vm_compute; reflexivity).
  destruct (createUser_flags _ _ _ _ _ Hrun1) as (Hfirst & _ & _).
  destruct (createUser_flags _ _ _ _ _ Hrun2) as (_ & Hlater & Hdays).
  split; [vm_compute; reflexivity |]. split; [exact (Hfirst eq_refl) |].
  split; [vm_compute; reflexivity |]. split; [| exact Hdays].
  apply Hlater. intros Hempty.
  apply (f_equal (λ m : gmap Principal User, m !! "alice")) in Hempty.
  vm_compute in Hempty. discriminate Hempty.
Defined.

(** ** Listing *)

(** C8, the code at the failing input: Bob asks for his APPROVED leaves
    and is handed his PENDING one. *)
Theorem getMyLeaveRequestsByStatus_other_status :
  isActive st as_bob = true ∧
  getMyLeaveRequestsByStatus st as_bob LeaveStatuses.APPROVED = Ok [bob_leave] ∧
  leave_status bob_leave = LeaveStatuses.PENDING.
Proof.
  split_and!; reflexivity.
Qed.

(** ** Errors *)

(** Bob is no administrator: his status update is refused and nothing
    is written. *)
Lemma perform_error_keeps_state_witness :
  perform st as_bob (UpdateLeaveStatus bob_leave_id LeaveStatuses.APPROVED) =
  (Err "You do not have the permission for this operation!", st).
Proof.
  pose proof (perform_error_keeps_state st as_bob
                (UpdateLeaveStatus bob_leave_id LeaveStatuses.APPROVED)
                "You do not have the permission for this operation!"
                (snd (perform st as_bob
                        (UpdateLeaveStatus bob_leave_id LeaveStatuses.APPROVED)))
                eq_refl) as Hst.
  rewrite <- Hst at 2. reflexivity.
Defined.

(** ** Adjustments that do nothing *)

(** Dave has no day left; Bob has 17. *)
Lemma balance_adjustment_skipped_at_zero_witness :
  is_Ok (fst (updateUsersAvailableDays st as_alice "dave" 3 ADD)) = false ∧
  snd (updateUsersAvailableDays st as_alice "dave" 3 ADD) = st ∧
  balance (snd (updateUsersAvailableDays st as_alice "bob" 17 SUBTRACT)) "bob" = Some 17%Z ∧
  balance (snd (updateLeaveStatus st as_alice dave_leave_id LeaveStatuses.REJECTED)) "dave"
  = Some 0%Z ∧
  balance (snd (deleteLeave st as_dave dave_leave_id)) "dave" = Some 0%Z ∧
  is_Ok (fst (requestLeave st as_bob (mkLeavePayload (january 10) (january 27)))) = true ∧
  balance (snd (requestLeave st as_bob (mkLeavePayload (january 10) (january 27)))) "bob"
  = Some 17%Z.
Proof.
  destruct (balance_adjustment_skipped_at_zero (platform := Utc.platform))
    as (Hzero & Hresult & Hreject & Hdelete & Hrequest).
  destruct (Hzero st as_alice "dave" dave 3%Z ADD eq_refl eq_refl) as [msg Hmsg].
  split; [rewrite Hmsg; reflexivity |].
  split; [rewrite Hmsg; reflexivity |].
  split; [exact (Hresult st as_alice "bob" bob 17%Z SUBTRACT eq_refl eq_refl eq_refl) |].
  split; [exact (proj2 (Hreject st as_alice dave_leave_id dave_leave dave
                          eq_refl eq_refl eq_refl eq_refl eq_refl eq_refl)) |].
  split; [exact (proj2 (Hdelete st as_dave dave_leave_id dave_leave dave
                          eq_refl eq_refl eq_refl eq_refl eq_refl eq_refl)) |].
  refine (Hrequest st as_bob (mkLeavePayload (january 10) (january 27)) bob 2023%Z
            eq_refl eq_refl eq_refl _ eq_refl eq_refl eq_refl eq_refl).
  vm_compute. reflexivity.
Defined.

End Runs.

(** ** Status updates on numbers *)

Section RunsOnNumbers.

#[local] Existing Instance Utc.platform.

Import Sample.

Local Open Scope string_scope.

(** Bob's 4 days go back to him when Alice rejects his leave and are
    taken once more when she approves it. *)
Lemma updateLeaveStatus_num_balance_witness :
  balance_num (as_numbers st) "bob" = Some (Num 17) ∧
  balance_num (snd (updateLeaveStatus_num (as_numbers st) as_alice bob_leave_id
                      LeaveStatuses.REJECTED)) "bob" = Some (Num 21) ∧
  balance_num (snd (updateLeaveStatus_num (as_numbers st) as_alice bob_leave_id
                      LeaveStatuses.APPROVED)) "bob" = Some (Num 13).
Proof.
  assert (Hsafe17 : safe_integer 17) by (unfold safe_integer; vm_compute; discriminate).
  assert (Hsafe4 : safe_integer 4) by (unfold safe_integer; vm_compute; discriminate).
  split; [reflexivity |]. split.
  - refine (proj1 (updateLeaveStatus_num_balance (as_numbers st) as_alice bob_leave_id
                     LeaveStatuses.REJECTED (leave_as_numbers bob_leave)
                     (user_as_numbers bob) 17 4
                     eq_refl eq_refl eq_refl eq_refl eq_refl eq_refl eq_refl
                     Hsafe17 Hsafe4 _) eq_refl _ _);
      [discriminate | unfold safe_integer; vm_compute; discriminate | discriminate].
  - refine (proj2 (updateLeaveStatus_num_balance (as_numbers st) as_alice bob_leave_id
                     LeaveStatuses.APPROVED (leave_as_numbers bob_leave)
                     (user_as_numbers bob) 17 4
                     eq_refl eq_refl eq_refl eq_refl eq_refl eq_refl eq_refl
                     Hsafe17 Hsafe4 _) _ _ _);
      [discriminate | discriminate | unfold safe_integer; vm_compute; discriminate
      | discriminate].
Defined.

(** The leave with NaN days: rejected or approved, it moves nothing. *)
Example updateLeaveStatus_num_nan_days_run :
  balance_num SampleNaN.st "bob" = Some (Num 17) ∧
  balance_num (snd (updateLeaveStatus_num SampleNaN.st as_alice fresh_id
                      LeaveStatuses.REJECTED)) "bob" = Some (Num 17) ∧
  balance_num (snd (updateLeaveStatus_num SampleNaN.st as_alice fresh_id
                      LeaveStatuses.APPROVED)) "bob" = Some (Num 17).
Proof.
  split; [reflexivity |]. split.
  - exact (proj2 (updateLeaveStatus_num_nan_days SampleNaN.st as_alice fresh_id
                    LeaveStatuses.REJECTED SampleNaN.nan_leave (user_as_numbers bob)
                    eq_refl eq_refl eq_refl eq_refl eq_refl eq_refl)).
  - exact (proj2 (updateLeaveStatus_num_nan_days SampleNaN.st as_alice fresh_id
                    LeaveStatuses.APPROVED SampleNaN.nan_leave (user_as_numbers bob)
                    eq_refl eq_refl eq_refl eq_refl eq_refl eq_refl)).
Qed.

End RunsOnNumbers.

(** * Further properties of the canister *)

(** ** The day count, again *)

(** X1: the day count does not depend on the order of the two dates. *)
Theorem findDiffInDays_symmetric (s e : Z) :
  findDiffInDays s e = findDiffInDays e s.
Proof.
  rewrite !findDiffInDays_Z. cbv zeta.
  replace (Z.abs (s - e)) with (Z.abs (e - s)) by lia. reflexivity.
Qed.

(** X2: for two time values a [Date] can hold, [n] whole days apart,
    the day count is [|n|], and 1 when they are the same. *)
Theorem findDiffInDays_whole_days (s n : Z) :
  time_value s →
  time_value (s + n * oneDay) →
  findDiffInDays s (s + n * oneDay) = Z.max 1 (Z.abs n).
Proof.
  intros _ _. apply findDiffInDays_rounds.
  assert (HD : oneDay = 86400000) by reflexivity.
  replace (s + n * oneDay - s) with (n * oneDay) by lia.
  rewrite Z.abs_mul, (Z.abs_eq oneDay) by lia. lia.
Qed.

Lemma lower_ascii_idempotent (c : Ascii.ascii) :
  lower_ascii (lower_ascii c) = lower_ascii c.
Proof.
  destruct c as [[] [] [] [] [] [] [] []]; reflexivity.
Qed.

Lemma toLowerCase_idempotent (s : string) :
  toLowerCase (toLowerCase s) = toLowerCase s.
Proof.
  induction s as [| c s IH]; cbn; [reflexivity |].
  rewrite lower_ascii_idempotent, IH. reflexivity.
Qed.

Section Further.

Context `{platform : Platform}.

(** ** Validation *)

(** [isValidEmail] does not see the case of ASCII letters: an email and
    its lower-case form are accepted or refused together. *)
Lemma isValidEmail_ignores_case (email : string) :
  isValidEmail (toLowerCase email) = isValidEmail email.
Proof.
  unfold isValidEmail. rewrite toLowerCase_idempotent. reflexivity.
Qed.

(** X3: the answer "Leave should be atleast one day!" is never given, by
    [requestLeave] or by [updateLeave]: the day count is at least 1. *)
Theorem one_day_error_never_given st env id payload :
  fst (requestLeave st env payload) ≠ Err "Leave should be atleast one day!"%string ∧
  fst (updateLeave st env id payload) ≠ Err "Leave should be atleast one day!"%string.
Proof.
  pose proof (findDiffInDays_pos (lp_startDate payload) (lp_endDate payload)) as Hpos.
  assert (Heq : (findDiffInDays (lp_startDate payload) (lp_endDate payload) =? 0) = false)
    by (apply Z.eqb_neq; lia).
  assert (Hle : (findDiffInDays (lp_startDate payload) (lp_endDate payload) <=? 0) = false)
    by (apply Z.leb_gt; lia).
  split.
  - unfold requestLeave. rewrite Heq.
    repeat case_match; cbn [fst]; discriminate.
  - unfold updateLeave. rewrite Hle.
    repeat case_match; cbn [fst]; discriminate.
Qed.

(** X4: [requestLeave] never answers that the period overlaps an
    existing leave, whatever is stored. *)
Theorem overlap_error_never_given st env payload :
  fst (requestLeave st env payload) ≠
  Err "The chosen leave period overlaps with an existing leave!"%string.
Proof.
  unfold requestLeave.
  repeat case_match; cbn [fst]; discriminate.
Qed.

(** ** The user directory *)

Lemma elem_of_values {K V : Type} `{Countable K} (m : gmap K V) (x : V) :
  x ∈ values m ↔ ∃ k, m !! k = Some x.
Proof.
  unfold values. rewrite list_elem_of_fmap. split.
  - intros [[k v] [-> Hin]]. exists k. apply elem_of_map_to_list. exact Hin.
  - intros [k Hk]. exists (k, x). split; [reflexivity |].
    apply elem_of_map_to_list. exact Hk.
Qed.

Lemma isUserExists_true st email :
  isUserExists st email = true ↔
  ∃ k u, userStorage st !! k = Some u ∧ user_email u = email.
Proof.
  unfold isUserExists. rewrite existsb_exists. split.
  - intros [u [Hin Heq]]. apply list_elem_of_In, elem_of_values in Hin.
    destruct Hin as [k Hk]. apply String.eqb_eq in Heq. eauto.
  - intros (k & u & Hk & Heq). exists u. split.
    + apply list_elem_of_In, elem_of_values. eauto.
    + apply String.eqb_eq. exact Heq.
Qed.

Lemma isUserExists_false st email k u :
  isUserExists st email = false →
  userStorage st !! k = Some u →
  user_email u ≠ email.
Proof.
  intros Hno Hk Heq.
  assert (Hyes : isUserExists st email = true)
    by (apply isUserExists_true; eauto).
  congruence.
Qed.

(** X5: an email already stored for some user is refused by
    [createUser], whoever asks and under whatever name, and nothing is
    written. *)
Theorem createUser_duplicate_email st env payload k u :
  userStorage st !! k = Some u →
  user_email u = cp_email payload →
  truthy_string (cp_name payload) = true →
  truthy_string (cp_email payload) = true →
  isValidEmail (cp_email payload) = true →
  createUser st env payload =
  (Err "User with given email address exists already!"%string, st).
Proof.
  intros Hk Heq Hn He Hv. unfold createUser.
  rewrite Hn, He, Hv. cbn [negb orb].
  assert (Hex : isUserExists st (cp_email payload) = true)
    by (apply isUserExists_true; eauto).
  rewrite Hex. reflexivity.
Qed.

(** X6: the user returned by a successful [createUser] is the record
    stored for the caller: [getUser] hands it back, and the call makes
    the caller the only new key of the directory. *)
Theorem createUser_then_getUser st env payload user st' :
  createUser st env payload = (Ok user, st') →
  getUser st' (caller env) = Ok user ∧
  user_id user = caller env ∧
  user_name user = cp_name payload ∧
  user_email user = cp_email payload ∧
  leaveStorage st' = leaveStorage st ∧
  ∀ k, k ≠ caller env → userStorage st' !! k = userStorage st !! k.
Proof.
  unfold createUser. intros Hc.
  repeat case_match; try discriminate.
  injection Hc as <- <-. unfold getUser. cbn.
  rewrite lookup_insert_eq. split_and!; try reflexivity.
  intros k Hk. apply lookup_insert_ne. congruence.
Qed.

(** X7: [createUser] does not look whether the caller is registered
    already: a registered caller who comes back with an unused email is
    given a new record in place of the old one, with 21 days again and
    neither active nor administrator. *)
Theorem createUser_again_resets st env payload old :
  userStorage st !! caller env = Some old →
  truthy_string (cp_name payload) = true →
  truthy_string (cp_email payload) = true →
  isValidEmail (cp_email payload) = true →
  isUserExists st (cp_email payload) = false →
  ∃ user st',
    createUser st env payload = (Ok user, st') ∧
    userStorage st' !! caller env = Some user ∧
    user_availableDays user = 21 ∧
    user_isActive user = false ∧
    user_isAdmin user = false.
Proof.
  intros Hold Hn He Hv Hex. unfold createUser.
  rewrite Hn, He, Hv, Hex. cbn [negb orb].
  assert (Hne : isEmpty (userStorage st) = false).
  { destruct (isEmpty (userStorage st)) eqn:Hemp; [| reflexivity].
    apply isEmpty_spec in Hemp. rewrite Hemp, lookup_empty in Hold. discriminate. }
  rewrite Hne. eexists _, _. split; [reflexivity |]. cbn.
  rewrite lookup_insert_eq. split_and!; reflexivity.
Qed.

(** X8: a user cannot send their own stored email back through
    [updateUser]: the search for the email finds their own record and
    the whole update, name included, is refused. *)
Theorem updateUser_own_email_refused st env payload u :
  userStorage st !! caller env = Some u →
  cp_email payload = user_email u →
  truthy_string (cp_email payload) = true →
  isValidEmail (cp_email payload) = true →
  updateUser st env payload =
  (Err "User with given email address exists already!"%string, st).
Proof.
  intros Hu Heq He Hv. unfold updateUser, updateUserParams.
  rewrite He. rewrite andb_false_r. cbn [up_id up_email]. rewrite Hu, He, Hv.
  cbn [negb].
  assert (Hex : isUserExists st (cp_email payload) = true)
    by (apply isUserExists_true; eauto).
  rewrite Hex. reflexivity.
Qed.

(** X9: [updateUser] touches the profile only: on success the caller's
    record keeps its identifier, flags, balance and creation time, takes
    the time of the call for [updatedAt], and takes the name and the
    email of the payload where they are not empty (an empty field
    leaves the stored one). *)
Theorem updateUser_profile_only st env payload u u' st' :
  userStorage st !! caller env = Some u →
  updateUser st env payload = (Ok u', st') →
  user_id u' = user_id u ∧
  user_isActive u' = user_isActive u ∧
  user_isAdmin u' = user_isAdmin u ∧
  user_availableDays u' = user_availableDays u ∧
  user_createdAt u' = user_createdAt u ∧
  user_updatedAt u' = Some (time env) ∧
  user_name u' =
    (if truthy_string (cp_name payload) then cp_name payload else user_name u) ∧
  user_email u' =
    (if truthy_string (cp_email payload) then cp_email payload else user_email u) ∧
  st' = mkStorage (<[user_id u := u']> (userStorage st)) (leaveStorage st).
Proof.
  intros Hu. unfold updateUser, updateUserParams.
  cbn [up_id up_email up_name up_availableDays up_isActive up_isAdmin]. rewrite Hu.
  intros Hr.
  destruct (truthy_string (cp_name payload)), (truthy_string (cp_email payload));
    cbn [negb andb] in Hr; try discriminate;
    repeat case_match; simplify_eq; cbn; split_and!; reflexivity.
Qed.

(** ** What every reachable state satisfies *)

Lemma run_reachable st calls : reachable st → reachable (run st calls).
Proof.
  revert st. induction calls as [| [env call] calls IH]; intros st Hr; [exact Hr |].
  cbn. apply IH. apply reachable_step. exact Hr.
Qed.

Lemma emails_insert st k u' leaves :
  emails_unique st →
  (isUserExists st (user_email u') = false ∨
   ∃ u, userStorage st !! k = Some u ∧ user_email u' = user_email u) →
  emails_unique (mkStorage (<[k := u']> (userStorage st)) leaves).
Proof.
  intros Huniq Hcase k1 k2 u1 u2. cbn [userStorage].
  rewrite !lookup_insert. repeat case_decide; intros H1 H2 He; simplify_eq.
  - reflexivity.
  - destruct Hcase as [Hno | (u & Hu & Heq)].
    + exfalso. eapply isUserExists_false; [exact Hno | exact H2 | congruence].
    + eapply Huniq; [exact Hu | exact H2 | congruence].
  - destruct Hcase as [Hno | (u & Hu & Heq)].
    + exfalso. eapply isUserExists_false; [exact Hno | exact H1 | congruence].
    + eapply Huniq; [exact H1 | exact Hu | congruence].
  - eapply Huniq; eassumption.
Qed.

Lemma emails_unique_users st st' :
  userStorage st' = userStorage st → emails_unique st → emails_unique st'.
Proof. unfold emails_unique. intros ->. trivial. Qed.

Lemma updateUserParams_emails st env payload :
  consistent st →
  emails_unique st →
  emails_unique (snd (updateUserParams st env payload)).
Proof.
  intros Hc Huniq. unfold updateUserParams.
  destruct (up_id payload) as [pid|]; [| exact Huniq].
  destruct (userStorage st !! pid) as [u|] eqn:Hu; [| exact Huniq].
  pose proof (users_keyed st Hc pid u Hu) as Hkey. rewrite Hkey.
  repeat case_match; cbn [snd]; try exact Huniq;
    (apply emails_insert; [exact Huniq |]);
    first [ left; cbn; assumption
          | right; exists u; split; [exact Hu | reflexivity] ].
Qed.

Lemma updateUsersAvailableDays_emails st env userId d op :
  consistent st →
  emails_unique st →
  emails_unique (snd (updateUsersAvailableDays st env userId d op)).
Proof.
  intros Hc Huniq. unfold updateUsersAvailableDays. cbv zeta.
  destruct (userStorage st !! userId) as [u|]; [| exact Huniq].
  destruct (negb (truthy_number (user_availableDays u))); [exact Huniq |].
  apply updateUserParams_emails; assumption.
Qed.

Lemma perform_emails st env call :
  consistent st →
  emails_unique st →
  emails_unique (snd (perform st env call)).
Proof.
  intros Hc Huniq. destruct call; cbn [perform]; try assumption;
    match goal with
    | |- context [let '(_, _) := ?op in _] =>
        let H := fresh "Hop" in
        destruct op as [r st'] eqn:H; cbn [snd];
        apply (f_equal snd) in H; cbn [snd] in H; subst st'
    end.
  - (* createUser *)
    unfold createUser. repeat case_match; try assumption. cbn [snd user_id].
    apply emails_insert; [exact Huniq |]. left. cbn. assumption.
  - (* deleteLeave *)
    unfold deleteLeave. repeat case_match; try assumption; cbn [snd].
    apply updateUsersAvailableDays_emails;
      [apply consistent_delete_leave, Hc | exact Huniq].
  - (* promoteUser *)
    unfold promoteUser. repeat case_match; try assumption;
      apply updateUserParams_emails; assumption.
  - (* requestLeave *)
    unfold requestLeave. repeat case_match; try assumption; cbn [snd].
    apply updateUsersAvailableDays_emails.
    + apply (consistent_insert_leave st
               (mkLeave (uuid env) (caller env) (lp_startDate payload)
                  (lp_endDate payload)
                  (findDiffInDays (lp_startDate payload) (lp_endDate payload))
                  LeaveStatuses.PENDING (time env) None) Hc).
      cbn [leave_userId]. eauto.
    + eapply emails_unique_users; [| exact Huniq]. reflexivity.
  - (* updateLeave *)
    unfold updateLeave. repeat case_match; assumption.
  - (* updateLeaveStatus *)
    unfold updateLeaveStatus. repeat case_match; try assumption; cbn [snd];
      (apply updateUsersAvailableDays_emails;
       [| eapply emails_unique_users; [| exact Huniq]; reflexivity]);
      match goal with
      | Hl : leaveStorage st !! id = Some ?l |- _ =>
          apply (consistent_insert_leave st
                   (mkLeave (leave_id l) (leave_userId l) (leave_startDate l)
                      (leave_endDate l) (leave_days l) status (leave_createdAt l)
                      (Some (time env))) Hc);
          cbn [leave_userId]; eapply owners_stored; eassumption
      end.
  - (* updateUser *)
    unfold updateUser. case_match; [assumption |].
    apply updateUserParams_emails; assumption.
Qed.

(** X10: in every state reached from the empty canister no two stored
    users have the same email. *)
Theorem reachable_emails_unique st : reachable st → emails_unique st.
Proof.
  induction 1 as [| st env call Hr IH].
  - intros k1 k2 u1 u2 H1. cbn in H1. rewrite lookup_empty in H1. discriminate.
  - apply perform_emails; [apply reachable_consistent, Hr | exact IH].
Qed.

Lemma updateUserParams_leaves st env payload :
  leaveStorage (snd (updateUserParams st env payload)) = leaveStorage st.
Proof.
  unfold updateUserParams. repeat case_match; reflexivity.
Qed.

Lemma days_derived_leaves st st' :
  leaveStorage st' = leaveStorage st → days_derived st → days_derived st'.
Proof. unfold days_derived. intros ->. trivial. Qed.

Lemma days_derived_insert st users l :
  days_derived st →
  leave_days l = findDiffInDays (leave_startDate l) (leave_endDate l) →
  days_derived (mkStorage users (<[leave_id l := l]> (leaveStorage st))).
Proof.
  intros Hd Hl k l'. cbn [leaveStorage]. rewrite lookup_insert.
  case_decide; [intros [= <-]; exact Hl | apply Hd].
Qed.

Lemma perform_days_derived st env call :
  days_derived st → days_derived (snd (perform st env call)).
Proof.
  intros Hd. destruct call; cbn [perform]; try assumption;
    match goal with
    | |- context [let '(_, _) := ?op in _] =>
        let H := fresh "Hop" in
        destruct op as [r st'] eqn:H; cbn [snd];
        apply (f_equal snd) in H; cbn [snd] in H; subst st'
    end.
  - (* createUser *)
    unfold createUser. repeat case_match; assumption.
  - (* deleteLeave *)
    assert (Hdel : days_derived (mkStorage (userStorage st) (delete id (leaveStorage st)))).
    { intros k l. cbn [leaveStorage]. rewrite lookup_delete.
      case_decide; [discriminate | apply Hd]. }
    unfold deleteLeave. repeat case_match; try assumption; cbn [snd].
    eapply days_derived_leaves; [apply updateUsersAvailableDays_leaves | exact Hdel].
  - (* promoteUser *)
    unfold promoteUser. repeat case_match; try assumption;
      (eapply days_derived_leaves; [apply updateUserParams_leaves | exact Hd]).
  - (* requestLeave *)
    unfold requestLeave. repeat case_match; try assumption; cbn [snd].
    eapply days_derived_leaves; [apply updateUsersAvailableDays_leaves |].
    apply (days_derived_insert st (userStorage st)
             (mkLeave (uuid env) (caller env) (lp_startDate payload)
                (lp_endDate payload)
                (findDiffInDays (lp_startDate payload) (lp_endDate payload))
                LeaveStatuses.PENDING (time env) None) Hd).
    reflexivity.
  - (* updateLeave *)
    unfold updateLeave. repeat case_match; try assumption; cbn [snd].
    match goal with
    | Hl : leaveStorage st !! id = Some ?l |- _ =>
        apply (days_derived_insert st (userStorage st)
                 (mkLeave (leave_id l) (leave_userId l) (lp_startDate payload)
                    (lp_endDate payload)
                    (findDiffInDays (lp_startDate payload) (lp_endDate payload))
                    (leave_status l) (leave_createdAt l) (Some (time env))) Hd)
    end. reflexivity.
  - (* updateLeaveStatus *)
    unfold updateLeaveStatus. repeat case_match; try assumption; cbn [snd];
      (eapply days_derived_leaves; [apply updateUsersAvailableDays_leaves |]);
      match goal with
      | Hl : leaveStorage st !! id = Some ?l |- _ =>
          apply (days_derived_insert st (userStorage st)
                   (mkLeave (leave_id l) (leave_userId l) (leave_startDate l)
                      (leave_endDate l) (leave_days l) status (leave_createdAt l)
                      (Some (time env))) Hd);
          cbn; eapply Hd; eassumption
      end.
  - (* updateUser *)
    unfold updateUser. case_match; [assumption |].
    eapply days_derived_leaves; [apply updateUserParams_leaves | exact Hd].
Qed.

(** X11: in every reachable state the [days] of a stored leave is the
    day count [findDiffInDays] gives for its stored dates: requests and
    date updates store the three together, status updates keep them. *)
Theorem reachable_days_derived st k l :
  reachable st →
  leaveStorage st !! k = Some l →
  leave_days l = findDiffInDays (leave_startDate l) (leave_endDate l).
Proof.
  intros Hr Hl.
  assert (Hd : days_derived st).
  { clear k l Hl. induction Hr as [| st env call _ IH].
    - intros k l Hl. cbn in Hl. rewrite lookup_empty in Hl. discriminate.
    - apply perform_days_derived, IH. }
  exact (Hd k l Hl).
Qed.

(** X12: in every reachable state a user is stored under their own
    principal, a leave under its own identifier, and the owner of every
    stored leave is a stored user. *)
Theorem reachable_records_in_place st :
  reachable st →
  (∀ k u, userStorage st !! k = Some u → user_id u = k) ∧
  (∀ k l, leaveStorage st !! k = Some l → leave_id l = k) ∧
  (∀ k l, leaveStorage st !! k = Some l → is_Some (userStorage st !! leave_userId l)).
Proof.
  intros Hr. apply reachable_consistent in Hr. destruct Hr as [Hk Hl Ho _].
  split_and!; assumption.
Qed.

(** X13: the service never stores a balance of 0: in every reachable
    state each user's [availableDays] is different from 0. *)
Theorem reachable_balance_never_zero st k u :
  reachable st →
  userStorage st !! k = Some u →
  user_availableDays u ≠ 0.
Proof.
  intros Hr Hu. apply reachable_consistent in Hr.
  eapply balances_nonzero; eassumption.
Qed.

(** ** Flags and membership of the directory *)

Lemma updateUserParams_flags_at st env payload k u :
  consistent st →
  userStorage st !! k = Some u →
  ∃ u', userStorage (snd (updateUserParams st env payload)) !! k = Some u' ∧
        (user_isActive u = true → user_isActive u' = true) ∧
        (user_isAdmin u = true → user_isAdmin u' = true).
Proof.
  intros Hc Hk. unfold updateUserParams.
  destruct (up_id payload) as [pid|]; [| solve [exists u; split_and!; auto]].
  destruct (userStorage st !! pid) as [u0|] eqn:Hu0;
    [| solve [exists u; split_and!; auto]].
  pose proof (users_keyed st Hc pid u0 Hu0) as Hkey. rewrite Hkey.
  repeat case_match; cbn [snd userStorage];
    try solve [exists u; split_and!; auto];
    rewrite lookup_insert; case_decide; simplify_eq;
    try solve [exists u; split_and!; auto];
    (eexists; split; [reflexivity |]; cbn; auto).
Qed.

Lemma updateUsersAvailableDays_flags_at st env userId d op k u :
  consistent st →
  userStorage st !! k = Some u →
  ∃ u', userStorage (snd (updateUsersAvailableDays st env userId d op)) !! k = Some u' ∧
        (user_isActive u = true → user_isActive u' = true) ∧
        (user_isAdmin u = true → user_isAdmin u' = true).
Proof.
  intros Hc Hk. unfold updateUsersAvailableDays. cbv zeta.
  destruct (userStorage st !! userId) as [u0|];
    [| solve [exists u; split_and!; auto]].
  destruct (negb (truthy_number (user_availableDays u0)));
    [solve [exists u; split_and!; auto] |].
  apply updateUserParams_flags_at; assumption.
Qed.

(** X14: no call of the service deactivates a user or takes the
    administrator flag away: apart from a principal registering again
    under their own key, every stored user is still stored after the
    call, active if they were active and administrator if they were. *)
Theorem flags_never_cleared st env call k u :
  consistent st →
  userStorage st !! k = Some u →
  (∀ payload, call = CreateUser payload → k ≠ caller env) →
  ∃ u', userStorage (snd (perform st env call)) !! k = Some u' ∧
        (user_isActive u = true → user_isActive u' = true) ∧
        (user_isAdmin u = true → user_isAdmin u' = true).
Proof.
  intros Hc Hk Hself.
  assert (Hsame : ∃ u', userStorage st !! k = Some u' ∧
                        (user_isActive u = true → user_isActive u' = true) ∧
                        (user_isAdmin u = true → user_isAdmin u' = true))
    by (exists u; split_and!; auto).
  destruct call; cbn [perform]; try exact Hsame;
    match goal with
    | |- context [let '(_, _) := ?op in _] =>
        let H := fresh "Hop" in
        destruct op as [r st'] eqn:H; cbn [snd];
        apply (f_equal snd) in H; cbn [snd] in H; subst st'
    end.
  - (* createUser *)
    unfold createUser. repeat case_match; try exact Hsame. cbn [snd userStorage user_id].
    rewrite lookup_insert_ne; [exact Hsame |].
    intros Heq. eapply Hself; [reflexivity | symmetry; exact Heq].
  - (* deleteLeave *)
    unfold deleteLeave. repeat case_match; try exact Hsame; cbn [snd].
    apply updateUsersAvailableDays_flags_at;
      [apply consistent_delete_leave, Hc | exact Hk].
  - (* promoteUser *)
    unfold promoteUser. repeat case_match; try exact Hsame;
      apply updateUserParams_flags_at; assumption.
  - (* requestLeave *)
    unfold requestLeave. repeat case_match; try exact Hsame; cbn [snd].
    apply updateUsersAvailableDays_flags_at; [| exact Hk].
    apply (consistent_insert_leave st
             (mkLeave (uuid env) (caller env) (lp_startDate payload)
                (lp_endDate payload)
                (findDiffInDays (lp_startDate payload) (lp_endDate payload))
                LeaveStatuses.PENDING (time env) None) Hc).
    cbn [leave_userId]. eauto.
  - (* updateLeave *)
    unfold updateLeave. repeat case_match; exact Hsame.
  - (* updateLeaveStatus *)
    unfold updateLeaveStatus. repeat case_match; try exact Hsame; cbn [snd];
      (apply updateUsersAvailableDays_flags_at; [| exact Hk]);
      match goal with
      | Hl : leaveStorage st !! id = Some ?l |- _ =>
          apply (consistent_insert_leave st
                   (mkLeave (leave_id l) (leave_userId l) (leave_startDate l)
                      (leave_endDate l) (leave_days l) status (leave_createdAt l)
                      (Some (time env))) Hc);
          cbn [leave_userId]; eapply owners_stored; eassumption
      end.
  - (* updateUser *)
    unfold updateUser. case_match; [exact Hsame |].
    apply updateUserParams_flags_at; assumption.
Qed.

Lemma updateUserParams_keeps_users st env payload k :
  is_Some (userStorage st !! k) →
  is_Some (userStorage (snd (updateUserParams st env payload)) !! k).
Proof.
  intros Hk. unfold updateUserParams.
  repeat case_match; cbn [snd userStorage]; try exact Hk;
    apply lookup_insert_is_Some'; right; exact Hk.
Qed.

Lemma updateUsersAvailableDays_keeps_users st env userId d op k :
  is_Some (userStorage st !! k) →
  is_Some (userStorage (snd (updateUsersAvailableDays st env userId d op)) !! k).
Proof.
  intros Hk. unfold updateUsersAvailableDays. cbv zeta.
  destruct (userStorage st !! userId) as [u0|]; [| exact Hk].
  destruct (negb (truthy_number (user_availableDays u0))); [exact Hk |].
  apply updateUserParams_keeps_users. exact Hk.
Qed.

(** X15: no call of the service removes a user: whoever is stored
    before a call is stored after it, in any state. *)
Theorem users_never_removed st env call k :
  is_Some (userStorage st !! k) →
  is_Some (userStorage (snd (perform st env call)) !! k).
Proof.
  intros Hk. destruct call; cbn [perform]; try exact Hk;
    match goal with
    | |- context [let '(_, _) := ?op in _] =>
        let H := fresh "Hop" in
        destruct op as [r st'] eqn:H; cbn [snd];
        apply (f_equal snd) in H; cbn [snd] in H; subst st'
    end.
  - unfold createUser. repeat case_match; try exact Hk. cbn [snd userStorage].
    apply lookup_insert_is_Some'. right. exact Hk.
  - unfold deleteLeave. repeat case_match; try exact Hk; cbn [snd].
    apply updateUsersAvailableDays_keeps_users. exact Hk.
  - unfold promoteUser. repeat case_match; try exact Hk;
      apply updateUserParams_keeps_users; exact Hk.
  - unfold requestLeave. repeat case_match; try exact Hk; cbn [snd].
    apply updateUsersAvailableDays_keeps_users. exact Hk.
  - unfold updateLeave. repeat case_match; exact Hk.
  - unfold updateLeaveStatus. repeat case_match; try exact Hk; cbn [snd];
      apply updateUsersAvailableDays_keeps_users; exact Hk.
  - unfold updateUser. case_match; [exact Hk |].
    apply updateUserParams_keeps_users. exact Hk.
Qed.

(** X16: a successful [promoteUser] changes flags and [updatedAt] only,
    and only upwards: the target is active afterwards if it was or if
    the payload asks for [isActive] or [isAdmin], administrator if it
    was or if the payload asks for [isAdmin]; a [false] in the payload
    has no effect. *)
Theorem promoteUser_raises_flags_only st env payload u u' st' :
  userStorage st !! pp_id payload = Some u →
  promoteUser st env payload = (Ok u', st') →
  let asks (flag : option bool) := match flag with Some true => true | _ => false end in
  u' = mkUser (user_id u) (user_name u) (user_email u)
              (user_isActive u || asks (pp_isActive payload) || asks (pp_isAdmin payload))
              (user_isAdmin u || asks (pp_isAdmin payload))
              (user_availableDays u) (user_createdAt u) (Some (time env)) ∧
  st' = mkStorage (<[user_id u := u']> (userStorage st)) (leaveStorage st).
Proof.
  intros Hu. unfold promoteUser, updateUserParams.
  cbn [up_id up_email up_name up_availableDays up_isActive up_isAdmin]. rewrite Hu.
  intros Hr.
  destruct (negb (isAdmin st env)); [discriminate |].
  destruct (principal_strict_eq (pp_id payload) (caller env)); [discriminate |].
  destruct u as [i n e act adm av c up].
  destruct (pp_isAdmin payload) as [[|]|], (pp_isActive payload) as [[|]|];
    cbn in Hr; injection Hr as <- <-; cbn;
    destruct act, adm; split; reflexivity.
Qed.

(** ** What a call can do to a stored leave *)

(** A leave that is stored before and after a call is the same record,
    unless the call is an accepted [updateLeave] or [updateLeaveStatus]
    on it. *)
Lemma perform_leave_at st env call k l l' :
  consistent st →
  leaveStorage st !! uuid env = None →
  leaveStorage st !! k = Some l →
  leaveStorage (snd (perform st env call)) !! k = Some l' →
  l' = l ∨
  (∃ payload,
     call = UpdateLeave k payload ∧
     principal_strict_eq (leave_userId l) (caller env) = true ∧
     l' = mkLeave (leave_id l) (leave_userId l) (lp_startDate payload)
                  (lp_endDate payload)
                  (findDiffInDays (lp_startDate payload) (lp_endDate payload))
                  (leave_status l) (leave_createdAt l) (Some (time env))) ∨
  (∃ status,
     call = UpdateLeaveStatus k status ∧
     isAdmin st env = true ∧
     l' = mkLeave (leave_id l) (leave_userId l) (leave_startDate l) (leave_endDate l)
                  (leave_days l) status (leave_createdAt l) (Some (time env))).
Proof.
  intros Hc Hfresh Hk.
  match goal with
  | |- _ → ?G =>
      assert (Hsame : leaveStorage st !! k = Some l' → G)
        by (intros H; left; congruence)
  end.
  destruct call; cbn [perform]; try exact Hsame;
    match goal with
    | |- context [let '(_, _) := ?op in _] =>
        let H := fresh "Hop" in
        destruct op as [r st'] eqn:H; cbn [snd];
        apply (f_equal snd) in H; cbn [snd] in H; subst st'
    end.
  - (* createUser *)
    unfold createUser. repeat case_match; exact Hsame.
  - (* deleteLeave *)
    unfold deleteLeave. repeat case_match; try exact Hsame; cbn [snd];
      rewrite ?updateUsersAvailableDays_leaves; cbn [leaveStorage];
      rewrite lookup_delete; case_decide; [discriminate | exact Hsame |
                                           discriminate | exact Hsame].
  - (* promoteUser *)
    unfold promoteUser. repeat case_match; try exact Hsame;
      rewrite updateUserParams_leaves; exact Hsame.
  - (* requestLeave *)
    unfold requestLeave. repeat case_match; try exact Hsame; cbn [snd].
    rewrite updateUsersAvailableDays_leaves. cbn [leaveStorage leave_id].
    rewrite lookup_insert_ne; [exact Hsame | congruence].
  - (* updateLeave *)
    unfold updateLeave.
    destruct (negb (isValidUUID id)); [exact Hsame |].
    destruct (leaveStorage st !! id) as [l0|] eqn:Hl0; [| exact Hsame].
    pose proof (leaves_keyed st Hc id l0 Hl0) as Hkey.
    destruct (principal_strict_eq (leave_userId l0) (caller env)) eqn:Hown;
      [| exact Hsame]. cbn [negb].
    destruct (findDiffInDays (lp_startDate payload) (lp_endDate payload) <=? 0);
      [exact Hsame |]. cbn [snd leaveStorage]. rewrite Hkey, lookup_insert.
    case_decide; [| exact Hsame]. subst id. simplify_eq.
    intros [= <-]. right. left. exists payload. split_and!; reflexivity || assumption.
  - (* updateLeaveStatus *)
    unfold updateLeaveStatus.
    destruct (isAdmin st env) eqn:Hadm; [| exact Hsame]. cbn [negb].
    destruct (negb (isValidUUID id)); [exact Hsame |].
    destruct (leaveStorage st !! id) as [l0|] eqn:Hl0; [| exact Hsame].
    pose proof (leaves_keyed st Hc id l0 Hl0) as Hkey. cbn [snd].
    match goal with
    | |- _ → ?G =>
        assert (Hgoal :
          <[leave_id l0 :=
              mkLeave (leave_id l0) (leave_userId l0) (leave_startDate l0)
                (leave_endDate l0) (leave_days l0) status (leave_createdAt l0)
                (Some (time env))]> (leaveStorage st) !! k = Some l' → G)
    end.
    { rewrite Hkey, lookup_insert. case_decide; [| exact Hsame]. subst id. simplify_eq.
      intros [= <-]. right. right. exists status. split_and!; reflexivity. }
    destruct (String.eqb status LeaveStatuses.REJECTED);
      rewrite updateUsersAvailableDays_leaves; exact Hgoal.
  - (* updateUser *)
    unfold updateUser. case_match; [exact Hsame |].
    rewrite updateUserParams_leaves. exact Hsame.
Qed.

(** X17: the identifier, the owner and the creation time of a stored
    leave never change: whatever the call, a leave still stored under
    its key has them as before (the identifier drawn for a request
    being a new one). *)
Theorem leave_identity_fixed st env call k l l' :
  consistent st →
  leaveStorage st !! uuid env = None →
  leaveStorage st !! k = Some l →
  leaveStorage (snd (perform st env call)) !! k = Some l' →
  leave_id l' = leave_id l ∧
  leave_userId l' = leave_userId l ∧
  leave_createdAt l' = leave_createdAt l.
Proof.
  intros Hc Hfresh Hk Hk'.
  destruct (perform_leave_at st env call k l l' Hc Hfresh Hk Hk')
    as [-> | [(p & _ & _ & ->) | (s & _ & _ & ->)]]; split_and!; reflexivity.
Qed.

(** X18: the status of a stored leave changes only through
    [updateLeaveStatus] called by an administrator: after any other
    call, or a call by anyone else, it is what it was. *)
Theorem status_changed_by_administrators_only st env call k l l' :
  consistent st →
  leaveStorage st !! uuid env = None →
  leaveStorage st !! k = Some l →
  leaveStorage (snd (perform st env call)) !! k = Some l' →
  leave_status l' ≠ leave_status l →
  isAdmin st env = true ∧ call = UpdateLeaveStatus k (leave_status l').
Proof.
  intros Hc Hfresh Hk Hk' Hne.
  destruct (perform_leave_at st env call k l l' Hc Hfresh Hk Hk')
    as [-> | [(p & _ & _ & ->) | (s & -> & Hadm & ->)]].
  - contradiction.
  - cbn in Hne. contradiction.
  - split; [exact Hadm | reflexivity].
Qed.

(** X19: the dates and the day count of a stored leave change only
    through [updateLeave] called by a principal that [===] takes for the
    owner. *)
Theorem dates_changed_by_owner_only st env call k l l' :
  consistent st →
  leaveStorage st !! uuid env = None →
  leaveStorage st !! k = Some l →
  leaveStorage (snd (perform st env call)) !! k = Some l' →
  (leave_startDate l', leave_endDate l', leave_days l')
    ≠ (leave_startDate l, leave_endDate l, leave_days l) →
  principal_strict_eq (leave_userId l) (caller env) = true ∧
  call = UpdateLeave k (mkLeavePayload (leave_startDate l') (leave_endDate l')).
Proof.
  intros Hc Hfresh Hk Hk' Hne.
  destruct (perform_leave_at st env call k l l' Hc Hfresh Hk Hk')
    as [-> | [(p & -> & Hown & ->) | (s & _ & _ & ->)]].
  - contradiction.
  - split; [exact Hown |]. destruct p. reflexivity.
  - cbn in Hne. contradiction.
Qed.

(** X20: [updateLeave] is refused to everyone when [===] answers false
    on two [Principal] objects, as it does for the object [ic.caller()]
    builds and the one read from the stored leave: whatever the caller,
    the identifier and the dates, the call returns an error and writes
    nothing, and for a stored leave with a valid identifier the error
    is the permission message, for its owner too. *)
Theorem updateLeave_refused_to_everyone st env id payload :
  (∀ a b, principal_strict_eq a b = false) →
  is_Ok (fst (updateLeave st env id payload)) = false ∧
  snd (updateLeave st env id payload) = st ∧
  (isValidUUID id = true →
   is_Some (leaveStorage st !! id) →
   fst (updateLeave st env id payload) =
   Err "You do not have the permission for this operation!"%string).
Proof.
  intros Hnever. unfold updateLeave.
  destruct (isValidUUID id); cbn [negb].
  - destruct (leaveStorage st !! id) as [l|] eqn:Hl.
    + rewrite Hnever. cbn [negb fst snd is_Ok]. split_and!; reflexivity.
    + cbn [fst snd is_Ok]. split_and!; try reflexivity.
      intros _ [l Hsome]. discriminate Hsome.
  - cbn [fst snd is_Ok]. split_and!; try reflexivity. discriminate.
Qed.

(** X21: [deleteLeave] succeeds exactly when the identifier is a valid
    uuid of a stored leave whose status is not the text ACCEPTED. *)
Theorem deleteLeave_accepts_iff st env id :
  is_Ok (fst (deleteLeave st env id)) = true ↔
  isValidUUID id = true ∧
  ∃ l, leaveStorage st !! id = Some l ∧ leave_status l ≠ "ACCEPTED"%string.
Proof.
  unfold deleteLeave. split.
  - destruct (isValidUUID id); [| discriminate]. cbn [negb].
    destruct (leaveStorage st !! id) as [l|]; [| discriminate].
    destruct (String.eqb_spec (leave_status l) "ACCEPTED"); [discriminate |].
    intros _. split; [reflexivity |]. exists l. split; [reflexivity | assumption].
  - intros [Hid (l & Hl & Hst)]. rewrite Hid, Hl. cbn [negb].
    apply String.eqb_neq in Hst. rewrite Hst. reflexivity.
Qed.

(** X22: [deleteLeave] does not look at the caller: two calls that
    differ only in who calls give the same answer and the same state,
    so anyone can delete (and have refunded) anyone's leave. *)
Theorem deleteLeave_any_caller st id (t : N) (now1 now2 : Z)
    (caller1 caller2 uuid1 uuid2 : string) :
  deleteLeave st (mkEnv caller1 t now1 uuid1) id =
  deleteLeave st (mkEnv caller2 t now2 uuid2) id.
Proof.
  unfold deleteLeave, updateUsersAvailableDays, updateUserParams. reflexivity.
Qed.

(** ** Calls in sequence *)

Lemma adjusted_user_fields t u d op :
  user_id (adjusted_user t u d op) = user_id u ∧
  user_isActive (adjusted_user t u d op) = user_isActive u ∧
  user_isAdmin (adjusted_user t u d op) = user_isAdmin u ∧
  user_availableDays (adjusted_user t u d op) = adjusted (user_availableDays u) d op.
Proof.
  unfold adjusted_user, adjusted. cbv zeta.
  destruct (user_availableDays u =? 0); cbn [orb]; [split_and!; reflexivity |].
  destruct op;
    match goal with
    | |- context [if ?c then _ else _] => destruct c
    end; split_and!; reflexivity.
Qed.

Lemma updateUsersAvailableDays_record st env userId u d op :
  userStorage st !! userId = Some u →
  user_id u = userId →
  userStorage (snd (updateUsersAvailableDays st env userId d op)) !! userId =
  Some (adjusted_user (time env) u d op).
Proof.
  intros Hu Hkey. unfold updateUsersAvailableDays, adjusted_user. cbv zeta.
  rewrite Hu. unfold truthy_number. rewrite negb_involutive.
  destruct (user_availableDays u =? 0); [exact Hu |].
  rewrite (updateUserParams_balance_only _ _ _ _ _ Hu). cbv zeta.
  cbn [snd userStorage]. rewrite Hkey, lookup_insert_eq. unfold truthy_number.
  destruct op;
    match goal with
    | |- context [negb ?c] => destruct c
    end; reflexivity.
Qed.

(** The caller's record after an accepted request. *)
Lemma requestLeave_user_record st env payload u y :
  userStorage st !! caller env = Some u →
  user_id u = caller env →
  user_isActive u = true →
  lp_startDate payload < lp_endDate payload →
  findDiffInDays (lp_startDate payload) (lp_endDate payload) ≤ user_availableDays u →
  getFullYear (now env) = Some y →
  getFullYear (lp_startDate payload) = Some y →
  getFullYear (lp_endDate payload) = Some y →
  userStorage (snd (requestLeave st env payload)) !! caller env =
  Some (adjusted_user (time env) u
          (findDiffInDays (lp_startDate payload) (lp_endDate payload)) SUBTRACT).
Proof.
  intros Hu Hkey Hact Hlt Hbal Hy Hs He. unfold requestLeave.
  rewrite Hu. unfold isActive. rewrite Hu, Hact. cbn [negb].
  destruct (Z.geb_spec (lp_startDate payload) (lp_endDate payload)) as [? | _]; [lia |].
  pose proof (findDiffInDays_pos (lp_startDate payload) (lp_endDate payload)) as Hpos.
  destruct (Z.eqb_spec (findDiffInDays (lp_startDate payload) (lp_endDate payload)) 0)
    as [? | _]; [lia |].
  destruct (Z.ltb_spec (user_availableDays u)
              (findDiffInDays (lp_startDate payload) (lp_endDate payload)))
    as [? | _]; [lia |].
  rewrite Hy, Hs, He. unfold number_lt, number_gt. rewrite Z.ltb_irrefl.
  cbn [orb snd leave_id leave_userId leave_days].
  apply updateUsersAvailableDays_record; assumption.
Qed.




(** X25: the calendar-year test of [requestLeave], for a request that
    has passed the earlier checks (registered, active, dates in order,
    balance) while the current year is known: a date whose year is a
    number other than the current year has the request refused with
    the calendar-year message and nothing written; a date whose year is
    NaN (a time value no [Date] can hold) is let through, so that the
    request is accepted when neither date has a year other than the
    current one. *)
Theorem requestLeave_other_year st env payload u y :
  userStorage st !! caller env = Some u →
  user_isActive u = true →
  lp_startDate payload < lp_endDate payload →
  findDiffInDays (lp_startDate payload) (lp_endDate payload) ≤ user_availableDays u →
  getFullYear (now env) = Some y →
  let other_year (t : Z) :=
    match getFullYear t with Some yt => yt ≠ y | None => False end in
  (other_year (lp_startDate payload) ∨ other_year (lp_endDate payload) →
   requestLeave st env payload =
   (Err "Leave period should be in the current calendar year!"%string, st)) ∧
  (¬ other_year (lp_startDate payload) → ¬ other_year (lp_endDate payload) →
   is_Ok (fst (requestLeave st env payload)) = true).
Proof.
  intros Hu Hact Hlt Hbal Hy other_year. subst other_year. unfold requestLeave.
  rewrite Hu. unfold isActive. rewrite Hu, Hact. cbn [negb].
  destruct (Z.geb_spec (lp_startDate payload) (lp_endDate payload)) as [? | _]; [lia |].
  pose proof (findDiffInDays_pos (lp_startDate payload) (lp_endDate payload)) as Hpos.
  destruct (Z.eqb_spec (findDiffInDays (lp_startDate payload) (lp_endDate payload)) 0)
    as [? | _]; [lia |].
  destruct (Z.ltb_spec (user_availableDays u)
              (findDiffInDays (lp_startDate payload) (lp_endDate payload)))
    as [? | _]; [lia |].
  rewrite Hy. unfold number_lt, number_gt.
  destruct (getFullYear (lp_startDate payload)) as [ys|],
           (getFullYear (lp_endDate payload)) as [ye|];
    repeat match goal with
           | |- context [?a <? ?b] => destruct (Z.ltb_spec a b)
           end;
    (split; [intros [Hoff | Hoff] | intros Hs He]);
    cbn [orb fst is_Ok];
    first [reflexivity | exfalso; first [exact Hoff | lia]].
Qed.

(** X26: whoever registers in a directory that is not empty cannot use
    the leave ledger until an administrator activates them: their
    requests and listings are refused as not activated, and after a
    [promoteUser] with [isActive = true] they count as active. *)
Theorem newcomer_waits_for_activation st env payload user st1 :
  userStorage st ≠ ∅ →
  createUser st env payload = (Ok user, st1) →
  (∀ env1 request,
     caller env1 = caller env →
     requestLeave st1 env1 request = (Err not_activated, st1) ∧
     getMyLeaveRequests st1 env1 = Err not_activated) ∧
  (∀ env2 env3 isAdmin_flag,
     isAdmin st1 env2 = true →
     principal_strict_eq (caller env) (caller env2) = false →
     caller env3 = caller env →
     isActive (snd (promoteUser st1 env2
                      (mkPromoteUserPayload (caller env) isAdmin_flag (Some true))))
              env3 = true).
Proof.
  intros Hne Hc.
  assert (Hemp : isEmpty (userStorage st) = false).
  { destruct (isEmpty (userStorage st)) eqn:Hemp; [| reflexivity].
    apply isEmpty_spec in Hemp. contradiction. }
  assert (Hst1 : userStorage st1 !! caller env = Some user ∧
                 user_id user = caller env ∧ user_isActive user = false).
  { revert Hc. unfold createUser. repeat case_match; try discriminate.
    intros [= <- <-]. cbn. rewrite lookup_insert_eq, Hemp. split_and!; reflexivity. }
  destruct Hst1 as (Hu & Hid & Hact). split.
  - intros env1 request Hsame.
    unfold requestLeave, getMyLeaveRequests, isActive. rewrite Hsame, Hu, Hact.
    split; reflexivity.
  - intros env2 env3 flag Hadm Hself Hsame.
    unfold promoteUser, updateUserParams. rewrite Hadm. cbn [negb pp_id]. rewrite Hu, Hself.
    cbn [pp_isAdmin pp_isActive up_id up_email up_name up_availableDays
         up_isActive up_isAdmin].
    rewrite Hu. unfold isActive. rewrite Hsame.
    destruct flag as [[|]|]; cbn; rewrite Hid, lookup_insert_eq; reflexivity.
Qed.

(** ** Listings *)

Lemma caller_leaves_elem (leaves : gmap string Leave) (who : Principal) (l : Leave) :
  In l (List.filter (fun x => String.eqb (leave_userId x) who) (values leaves)) ↔
  ∃ k, leaves !! k = Some l ∧ leave_userId l = who.
Proof.
  rewrite filter_In, <- list_elem_of_In, elem_of_values, String.eqb_eq.
  split.
  - intros [[k Hk] Ho]. eauto.
  - intros (k & Hk & Ho). eauto.
Qed.

(** X27: for an active caller [getMyLeaveRequests] answers with the
    stored leaves of the caller, all of them and no other. *)
Theorem getMyLeaveRequests_exact st env :
  isActive st env = true →
  ∃ leaves,
    getMyLeaveRequests st env = Ok leaves ∧
    ∀ l, In l leaves ↔
         ∃ k, leaveStorage st !! k = Some l ∧ leave_userId l = caller env.
Proof.
  intros Hact. unfold getMyLeaveRequests. rewrite Hact. cbn [negb].
  eexists. split; [reflexivity |]. intros l. apply caller_leaves_elem.
Qed.

(** X28: a leave just requested is listed: after an accepted
    [requestLeave] the caller is still active and [getMyLeaveRequests]
    contains the leave that was returned. *)
Theorem requestLeave_then_listed st env payload u y env' :
  userStorage st !! caller env = Some u →
  user_id u = caller env →
  user_isActive u = true →
  lp_startDate payload < lp_endDate payload →
  findDiffInDays (lp_startDate payload) (lp_endDate payload) ≤ user_availableDays u →
  getFullYear (now env) = Some y →
  getFullYear (lp_startDate payload) = Some y →
  getFullYear (lp_endDate payload) = Some y →
  caller env' = caller env →
  ∃ leave leaves,
    fst (requestLeave st env payload) = Ok leave ∧
    getMyLeaveRequests (snd (requestLeave st env payload)) env' = Ok leaves ∧
    In leave leaves.
Proof.
  intros Hu Hkey Hact Hlt Hbal Hy Hs He Hsame.
  destruct (requestLeave_effect st env payload u y Hu Hact Hlt Hbal Hy Hs He)
    as (Hok & Hleaves & _).
  pose proof (requestLeave_user_record st env payload u y Hu Hkey Hact Hlt Hbal Hy Hs He)
    as Hrec.
  destruct (adjusted_user_fields (time env) u
              (findDiffInDays (lp_startDate payload) (lp_endDate payload)) SUBTRACT)
    as (_ & Ha & _ & _).
  eexists _, _. split; [exact Hok |].
  unfold getMyLeaveRequests, isActive. rewrite Hsame, Hrec, Ha, Hact. cbn [negb].
  split; [reflexivity |].
  apply caller_leaves_elem. exists (uuid env). rewrite Hleaves, lookup_insert_eq.
  split; reflexivity.
Qed.

End Further.

(** * The further properties on the sample data *)

Section FurtherRuns.

#[local] Existing Instance Utc.platform.

Import Sample.

Local Open Scope string_scope.

Lemma story_reachable : reachable Story.st.
Proof. apply run_reachable, reachable_init. Qed.

Lemma story_consistent : consistent Story.st.
Proof. apply reachable_consistent, story_reachable. Qed.

Lemma story_bob : userStorage Story.st !! "bob" = Some bob.
Proof. vm_compute. reflexivity. Qed.

Lemma story_leave : leaveStorage Story.st !! bob_leave_id = Some bob_leave.
Proof. vm_compute. reflexivity. Qed.

Lemma story_fresh : leaveStorage Story.st !! fresh_id = None.
Proof. vm_compute. reflexivity. Qed.

(** From 1 January 2023 back over 40 days. *)
Lemma findDiffInDays_whole_days_witness :
  findDiffInDays (january 1) (january 1 + (-40) * oneDay) = 40%Z.
Proof.
  apply (findDiffInDays_whole_days (january 1) (-40));
    unfold time_value; vm_compute; discriminate.
Defined.

(** Erin, who is not registered yet. *)
Lemma createUser_duplicate_email_witness :
  createUser st (mkEnv "erin" 430 (january 10) fresh_id)
    (mkCreateOrEditUserPayload "Erin" "bob@example.org") =
  (Err "User with given email address exists already!", st).
Proof.
  apply (createUser_duplicate_email st (mkEnv "erin" 430 (january 10) fresh_id)
           (mkCreateOrEditUserPayload "Erin" "bob@example.org") "bob" bob);
    vm_compute; reflexivity.
Defined.

Lemma createUser_then_getUser_witness :
  let env := mkEnv "erin" 430 (january 10) fresh_id in
  let payload := mkCreateOrEditUserPayload "Erin" "erin@example.org" in
  let erin := mkUser "erin" "Erin" "erin@example.org" false false 21 430 (Some 430%N) in
  getUser (snd (createUser st env payload)) "erin" = Ok erin.
Proof.
  intros env payload erin.
  assert (Hrun : createUser st env payload = (Ok erin, snd (createUser st env payload)))
    by (vm_compute; reflexivity).
  exact (proj1 (createUser_then_getUser st env payload erin _ Hrun)).
Defined.

(** Alice, administrator with 21 days, registers again. *)
Lemma createUser_again_resets_witness :
  userStorage st !! "alice" = Some alice ∧
  user_isAdmin alice = true ∧
  ∃ user st',
    createUser st as_alice (mkCreateOrEditUserPayload "Alice" "alice@example.com") =
    (Ok user, st') ∧
    userStorage st' !! "alice" = Some user ∧
    user_availableDays user = 21%Z ∧
    user_isActive user = false ∧
    user_isAdmin user = false.
Proof.
  split; [reflexivity |]. split; [reflexivity |].
  apply (createUser_again_resets st as_alice
           (mkCreateOrEditUserPayload "Alice" "alice@example.com") alice);
    vm_compute; reflexivity.
Defined.

Lemma updateUser_own_email_refused_witness :
  updateUser st as_bob (mkCreateOrEditUserPayload "Robert" "bob@example.org") =
  (Err "User with given email address exists already!", st).
Proof.
  apply (updateUser_own_email_refused st as_bob
           (mkCreateOrEditUserPayload "Robert" "bob@example.org") bob);
    vm_compute; reflexivity.
Defined.

Lemma updateUser_profile_only_witness :
  let payload := mkCreateOrEditUserPayload "Robert" "" in
  let bob' := mkUser "bob" "Robert" "bob@example.org" true false 17 200 (Some 410%N) in
  fst (updateUser st as_bob payload) = Ok bob' ∧
  user_availableDays bob' = user_availableDays bob ∧
  user_email bob' = user_email bob.
Proof.
  intros payload bob'.
  assert (Hrun : updateUser st as_bob payload =
                 (Ok bob', snd (updateUser st as_bob payload)))
    by (vm_compute; reflexivity).
  destruct (updateUser_profile_only st as_bob payload bob bob' _ eq_refl Hrun)
    as (_ & _ & _ & Hdays & _ & _ & _ & Hemail & _).
  split; [rewrite Hrun; reflexivity |]. split; [exact Hdays | exact Hemail].
Defined.

Lemma reachable_emails_unique_witness : emails_unique Story.st.
Proof. apply reachable_emails_unique, story_reachable. Defined.

Lemma reachable_days_derived_witness :
  leave_days bob_leave = findDiffInDays (january 1) (january 5).
Proof.
  exact (reachable_days_derived Story.st bob_leave_id bob_leave story_reachable story_leave).
Defined.

Lemma reachable_records_in_place_witness :
  (∀ k u, userStorage Story.st !! k = Some u → user_id u = k) ∧
  (∀ k l, leaveStorage Story.st !! k = Some l → leave_id l = k) ∧
  (∀ k l, leaveStorage Story.st !! k = Some l →
          is_Some (userStorage Story.st !! leave_userId l)).
Proof. apply reachable_records_in_place, story_reachable. Defined.

Lemma reachable_balance_never_zero_witness : user_availableDays bob ≠ 0%Z.
Proof.
  exact (reachable_balance_never_zero Story.st "bob" bob story_reachable story_bob).
Defined.

(** Alice deletes Bob's leave: Bob is still there and still active. *)
Lemma flags_never_cleared_witness :
  ∃ u', userStorage (snd (perform Story.st as_alice (DeleteLeave bob_leave_id))) !! "bob"
        = Some u' ∧
        (user_isActive bob = true → user_isActive u' = true) ∧
        (user_isAdmin bob = true → user_isAdmin u' = true).
Proof.
  apply (flags_never_cleared Story.st as_alice (DeleteLeave bob_leave_id) "bob" bob
           story_consistent story_bob).
  intros payload Hcall. discriminate Hcall.
Defined.

Lemma users_never_removed_witness :
  is_Some (userStorage (snd (perform st as_bob (DeleteLeave dave_leave_id))) !! "dave").
Proof.
  apply (users_never_removed st as_bob (DeleteLeave dave_leave_id) "dave").
  exists dave. reflexivity.
Defined.

(** Alice asks for Carol to be neither active nor administrator. *)
Lemma promoteUser_raises_flags_only_witness :
  let payload := mkPromoteUserPayload "carol" (Some false) (Some false) in
  let carol' := mkUser "carol" "Carol" "carol@example.org" true true 21 210 (Some 400%N) in
  fst (promoteUser st as_alice payload) = Ok carol' ∧
  snd (promoteUser st as_alice payload) =
  mkStorage (<["carol" := carol']> (userStorage st)) (leaveStorage st).
Proof.
  intros payload carol'.
  assert (Hrun : promoteUser st as_alice payload =
                 (Ok carol', snd (promoteUser st as_alice payload)))
    by (vm_compute; reflexivity).
  destruct (promoteUser_raises_flags_only st as_alice payload carol carol' _ eq_refl Hrun)
    as [_ Hst].
  split; [rewrite Hrun; reflexivity | exact Hst].
Defined.

(** Alice approves Bob's leave. *)
Lemma leave_identity_fixed_witness :
  leaveStorage (snd (perform Story.st as_alice
                       (UpdateLeaveStatus bob_leave_id LeaveStatuses.APPROVED)))
    !! bob_leave_id = Some bob_approved ∧
  leave_id bob_approved = leave_id bob_leave ∧
  leave_userId bob_approved = leave_userId bob_leave ∧
  leave_createdAt bob_approved = leave_createdAt bob_leave.
Proof.
  assert (Hafter : leaveStorage (snd (perform Story.st as_alice
                      (UpdateLeaveStatus bob_leave_id LeaveStatuses.APPROVED)))
                     !! bob_leave_id = Some bob_approved)
    by (vm_compute; reflexivity).
  split; [exact Hafter |].
  exact (leave_identity_fixed Story.st as_alice
           (UpdateLeaveStatus bob_leave_id LeaveStatuses.APPROVED)
           bob_leave_id bob_leave bob_approved
           story_consistent story_fresh story_leave Hafter).
Defined.

Lemma status_changed_by_administrators_only_witness :
  isAdmin Story.st as_alice = true ∧
  UpdateLeaveStatus bob_leave_id LeaveStatuses.APPROVED =
  UpdateLeaveStatus bob_leave_id (leave_status bob_approved).
Proof.
  apply (status_changed_by_administrators_only Story.st as_alice
           (UpdateLeaveStatus bob_leave_id LeaveStatuses.APPROVED)
           bob_leave_id bob_leave bob_approved
           story_consistent story_fresh story_leave).
  - vm_compute. reflexivity.
  - discriminate.
Defined.

(** Bob moves his leave to 12-15 January; principals are compared by
    value here, so that he passes for the owner. *)
Lemma dates_changed_by_owner_only_witness :
  let moved := mkLeave bob_leave_id "bob" (january 12) (january 15) 3
                       LeaveStatuses.PENDING 300 (Some 410%N) in
  principal_strict_eq (Platform := by_value) (leave_userId bob_leave) (caller as_bob)
  = true ∧
  UpdateLeave bob_leave_id (mkLeavePayload (january 12) (january 15)) =
  UpdateLeave bob_leave_id
    (mkLeavePayload (leave_startDate moved) (leave_endDate moved)).
Proof.
  intros moved.
  apply (dates_changed_by_owner_only (platform := by_value) Story.st as_bob
           (UpdateLeave bob_leave_id (mkLeavePayload (january 12) (january 15)))
           bob_leave_id bob_leave moved
           story_consistent story_fresh story_leave).
  - vm_compute. reflexivity.
  - vm_compute. discriminate.
Defined.

(** Bob, the owner, wants to move his own leave. *)
Lemma updateLeave_refused_to_everyone_witness :
  leave_userId bob_leave = caller as_bob ∧
  updateLeave st as_bob bob_leave_id (mkLeavePayload (january 12) (january 15)) =
  (Err "You do not have the permission for this operation!", st).
Proof.
  split; [reflexivity |].
  assert (Hnever : ∀ a b, principal_strict_eq (Platform := Utc.platform) a b = false)
    by (intros a b; reflexivity).
  destruct (updateLeave_refused_to_everyone st as_bob bob_leave_id
              (mkLeavePayload (january 12) (january 15)) Hnever)
    as (_ & Hst & Herr).
  rewrite (surjective_pairing (updateLeave st as_bob bob_leave_id
                                 (mkLeavePayload (january 12) (january 15)))).
  rewrite Hst, (Herr eq_refl (ex_intro _ bob_leave eq_refl)). reflexivity.
Defined.



(** From 27 December 2023 to 2 January 2024; and two days that no
    [Date] can hold. *)
Lemma requestLeave_other_year_witness :
  requestLeave st as_bob (mkLeavePayload (january 361) (january 367)) =
  (Err "Leave period should be in the current calendar year!", st) ∧
  Utc.getFullYear 8640000000000001 = None ∧
  is_Ok (fst (requestLeave st as_bob
                (mkLeavePayload 8640000000000001 (8640000000000001 + oneDay)))) = true.
Proof.
  split; [| split; [reflexivity |]].
  - refine (proj1 (requestLeave_other_year st as_bob
                     (mkLeavePayload (january 361) (january 367)) bob 2023%Z
                     eq_refl eq_refl _ _ eq_refl) _).
    + vm_compute. reflexivity.
    + vm_compute. discriminate.
    + right. vm_compute. discriminate.
  - refine (proj2 (requestLeave_other_year st as_bob
                     (mkLeavePayload 8640000000000001 (8640000000000001 + oneDay))
                     bob 2023%Z eq_refl eq_refl _ _ eq_refl) _ _).
    + vm_compute. reflexivity.
    + vm_compute. discriminate.
    + vm_compute. exact (fun H => H).
    + vm_compute. exact (fun H => H).
Defined.

(** Erin registers, asks for a leave at once, and is activated by Alice. *)
Lemma newcomer_waits_for_activation_witness :
  let as_erin := mkEnv "erin" 430 (january 10) fresh_id in
  let st1 := snd (createUser st as_erin
                    (mkCreateOrEditUserPayload "Erin" "erin@example.org")) in
  requestLeave st1 as_erin (mkLeavePayload (january 16) (january 18)) =
  (Err not_activated, st1) ∧
  isActive (snd (promoteUser st1 as_alice
                   (mkPromoteUserPayload "erin" None (Some true)))) as_erin = true.
Proof.
  intros as_erin st1.
  assert (Hrun : createUser st as_erin
                   (mkCreateOrEditUserPayload "Erin" "erin@example.org") =
                 (Ok (mkUser "erin" "Erin" "erin@example.org" false false 21 430
                        (Some 430%N)), st1))
    by (vm_compute; reflexivity).
  assert (Hne : userStorage st ≠ ∅).
  { intros Hempty.
    apply (f_equal (λ m : gmap Principal User, m !! "alice")) in Hempty.
    vm_compute in Hempty. discriminate Hempty. }
  destruct (newcomer_waits_for_activation st as_erin _ _ st1 Hne Hrun)
    as [Hrefused Hactivated].
  split.
  - exact (proj1 (Hrefused as_erin (mkLeavePayload (january 16) (january 18)) eq_refl)).
  - apply (Hactivated as_alice as_erin None); [vm_compute |..]; reflexivity.
Defined.

Lemma getMyLeaveRequests_exact_witness :
  ∃ leaves,
    getMyLeaveRequests st as_bob = Ok leaves ∧
    ∀ l, In l leaves ↔ ∃ k, leaveStorage st !! k = Some l ∧ leave_userId l = "bob".
Proof.
  apply (getMyLeaveRequests_exact st as_bob). reflexivity.
Defined.

Lemma requestLeave_then_listed_witness :
  ∃ leave leaves,
    fst (requestLeave st as_bob (mkLeavePayload (january 10) (january 14))) = Ok leave ∧
    getMyLeaveRequests
      (snd (requestLeave st as_bob (mkLeavePayload (january 10) (january 14)))) as_bob
    = Ok leaves ∧
    In leave leaves.
Proof.
  refine (requestLeave_then_listed st as_bob (mkLeavePayload (january 10) (january 14))
            bob 2023%Z as_bob eq_refl eq_refl eq_refl _ _ eq_refl eq_refl eq_refl eq_refl).
  - vm_compute. reflexivity.
  - vm_compute. discriminate.
Defined.

End FurtherRuns.

(** * The email pattern *)

Lemma append_cons (a : Ascii.ascii) (s1 s2 : string) :
  String a s1 +:+ s2 = String a (s1 +:+ s2).
Proof. reflexivity. Qed.

Lemma append_empty_r (s : string) : s +:+ "" = s.
Proof.
  induction s as [| a s IH]; [reflexivity |]. rewrite append_cons, IH. reflexivity.
Qed.

Lemma append_assoc (s1 s2 s3 : string) : (s1 +:+ s2) +:+ s3 = s1 +:+ (s2 +:+ s3).
Proof.
  induction s1 as [| a s1 IH]; [reflexivity |].
  rewrite !append_cons, IH. reflexivity.
Qed.

Lemma append_is_empty (s1 s2 : string) : s1 +:+ s2 = "" → s1 = "" ∧ s2 = "".
Proof.
  destruct s1; [intros H; split; [reflexivity | exact H] |].
  rewrite append_cons. discriminate.
Qed.

Lemma append_length (s1 s2 : string) :
  String.length (s1 +:+ s2) = (String.length s1 + String.length s2)%nat.
Proof.
  induction s1 as [| a s1 IH]; [reflexivity |].
  rewrite append_cons. cbn [String.length]. rewrite IH. reflexivity.
Qed.

Lemma all_chars_append (c : Ascii.ascii → bool) (s1 s2 : string) :
  all_chars c (s1 +:+ s2) = all_chars c s1 && all_chars c s2.
Proof.
  induction s1 as [| a s1 IH]; [reflexivity |].
  rewrite append_cons. cbn [all_chars]. rewrite IH, andb_assoc. reflexivity.
Qed.

(** ** The test computes the language *)

Lemma nullable_matches (r : regex) : nullable r = true ↔ matches r "".
Proof.
  split.
  - induction r as [| | c | r1 IH1 r2 IH2 | r1 IH1 r2 IH2 | r IH]; cbn [nullable].
    + discriminate.
    + intros _. constructor.
    + discriminate.
    + intros [H1 H2]%andb_true_iff.
      change (matches (Seq r1 r2) ("" +:+ "")). constructor; auto.
    + intros [H | H]%orb_true_iff; [apply matches_or_l | apply matches_or_r]; auto.
    + intros _. constructor.
  - intros H. remember EmptyString as s eqn:Hs.
    induction H as [| c a Hc | r1 r2 s1 s2 H1 IH1 H2 IH2 | r1 r2 s H IH | r1 r2 s H IH
                    | r | r s1 s2 H1 IH1 H2 IH2]; cbn [nullable].
    + reflexivity.
    + discriminate.
    + apply append_is_empty in Hs as [-> ->]. rewrite IH1, IH2; reflexivity.
    + rewrite IH; [reflexivity | assumption].
    + rewrite IH; [apply orb_true_r | assumption].
    + reflexivity.
    + reflexivity.
Qed.

Lemma matches_derive (a : Ascii.ascii) (r : regex) (s : string) :
  matches r (String a s) → matches (derive a r) s.
Proof.
  intros H. remember (String a s) as w eqn:Hw. revert s Hw.
  induction H as [| c a0 Hc | r1 r2 s1 s2 H1 IH1 H2 IH2 | r1 r2 w H IH | r1 r2 w H IH
                  | r | r s1 s2 H1 IH1 H2 IH2]; intros s Hw; cbn [derive].
  - discriminate.
  - injection Hw as -> <-. rewrite Hc. constructor.
  - destruct s1 as [| a1 s1].
    + change (s2 = String a s) in Hw. subst s2. apply matches_or_r.
      apply nullable_matches in H1. rewrite H1. apply IH2. reflexivity.
    + rewrite append_cons in Hw. injection Hw as -> <-.
      apply matches_or_l. constructor; [apply IH1; reflexivity | exact H2].
  - apply matches_or_l, IH, Hw.
  - apply matches_or_r, IH, Hw.
  - discriminate.
  - destruct s1 as [| a1 s1].
    + change (s2 = String a s) in Hw. apply IH2, Hw.
    + rewrite append_cons in Hw. injection Hw as -> <-.
      constructor; [apply IH1; reflexivity | exact H2].
Qed.

Lemma derive_matches (a : Ascii.ascii) (r : regex) (s : string) :
  matches (derive a r) s → matches r (String a s).
Proof.
  revert s.
  induction r as [| | c | r1 IH1 r2 IH2 | r1 IH1 r2 IH2 | r IH]; intros s H;
    cbn [derive] in H.
  - inversion H.
  - inversion H.
  - destruct (c a) eqn:Hc; inversion H; subst. constructor. exact Hc.
  - inversion H as [| | | ? ? ? Hl | ? ? ? Hr | |]; subst.
    + inversion Hl as [| | ? ? s1 s2 H1 H2 | | | |]; subst.
      rewrite <- append_cons. constructor; [apply IH1, H1 | exact H2].
    + destruct (nullable r1) eqn:Hn; [| inversion Hr].
      change (matches (Seq r1 r2) ("" +:+ String a s)).
      constructor; [apply nullable_matches, Hn | apply IH2, Hr].
  - inversion H; subst; [apply matches_or_l, IH1 | apply matches_or_r, IH2]; assumption.
  - inversion H as [| | ? ? s1 s2 H1 H2 | | | |]; subst.
    rewrite <- append_cons. constructor; [apply IH, H1 | exact H2].
Qed.

Lemma regex_test_matches (r : regex) (s : string) :
  regex_test r s = true ↔ matches r s.
Proof.
  revert r. induction s as [| a s IH]; intros r; cbn [regex_test].
  - apply nullable_matches.
  - rewrite IH. split; [apply derive_matches | apply matches_derive].
Qed.

(** ** Reading the pattern *)

Lemma matches_class_inv (c : Ascii.ascii → bool) (s : string) :
  matches (Class c) s → ∃ a, s = String a "" ∧ c a = true.
Proof. intros H. inversion H; subst. eauto. Qed.

Lemma matches_lit (code : nat) (s : string) :
  matches (lit code) s → s = String (Ascii.ascii_of_nat code) "".
Proof.
  intros (a & -> & Ha)%matches_class_inv. unfold code_in in Ha. cbn in Ha.
  rewrite orb_false_r in Ha. apply Nat.eqb_eq in Ha.
  rewrite <- Ha, Ascii.ascii_nat_embedding. reflexivity.
Qed.

Lemma matches_nonempty (r : regex) (s : string) :
  matches r s → nullable r = false → s ≠ "".
Proof.
  intros H Hn ->. apply nullable_matches in H. congruence.
Qed.

Lemma matches_many_class (c : Ascii.ascii → bool) (s : string) :
  matches (Many (Class c)) s → all_chars c s = true.
Proof.
  intros H. remember (Many (Class c)) as r eqn:Hr.
  induction H as [| | | | | r' | r' s1 s2 H1 _ H2 IH2]; try discriminate.
  - reflexivity.
  - injection Hr as ->. apply matches_class_inv in H1 as (a & -> & Ha).
    rewrite append_cons. cbn [all_chars]. rewrite Ha. apply IH2. reflexivity.
Qed.

Lemma all_chars_many (c : Ascii.ascii → bool) (s : string) :
  all_chars c s = true → matches (Many (Class c)) s.
Proof.
  induction s as [| a s IH]; cbn [all_chars]; [constructor |].
  intros [Ha Hs]%andb_true_iff.
  change (matches (Many (Class c)) (String a "" +:+ s)).
  constructor; [constructor; exact Ha | apply IH, Hs].
Qed.

Lemma all_chars_many1 (c : Ascii.ascii → bool) (s : string) :
  s ≠ "" → all_chars c s = true → matches (many1 (Class c)) s.
Proof.
  destruct s as [| a s]; [contradiction |]. cbn [all_chars].
  intros _ [Ha Hs]%andb_true_iff.
  change (matches (many1 (Class c)) (String a "" +:+ s)).
  constructor; [constructor; exact Ha | apply all_chars_many, Hs].
Qed.

(** A run of pieces that each end with a dot is empty or ends with a
    dot, with something before the dot when the pieces have. *)
Lemma many_dotted_ends (r : regex) (x : string) :
  (∀ p, matches r p → p ≠ "") →
  matches (Many (Seq r dot)) x →
  x = "" ∨ ∃ h, h ≠ "" ∧ x = h +:+ ".".
Proof.
  intros Hr H. remember (Many (Seq r dot)) as R eqn:HR.
  induction H as [| | | | | r' | r' s1 s2 H1 _ H2 IH2]; try discriminate.
  - left. reflexivity.
  - injection HR as ->. right.
    inversion H1 as [| | ? ? p q Hp Hq | | | |]; subst.
    apply matches_lit in Hq. change (q = ".") in Hq. subst q.
    pose proof (Hr p Hp) as Hne.
    destruct (IH2 eq_refl) as [-> | (h & Hh & ->)].
    + exists p. rewrite append_empty_r. split; [exact Hne | reflexivity].
    + exists (p +:+ "." +:+ h). split.
      * intros [Hp0 _]%append_is_empty. contradiction.
      * rewrite !append_assoc. reflexivity.
Qed.

Section Pattern.

#[local] Existing Instance with_pattern.

(** X29: what [isValidEmail] accepts has, once in lower case, a local
    part that is not empty, an [@], and a domain that either opens with
    a bracket or ends with a dot followed by two letters or more, with
    something before that dot. *)
Theorem isValidEmail_shape (email : string) :
  isValidEmail email = true →
  ∃ local domain,
    toLowerCase email = local +:+ "@" +:+ domain ∧
    local ≠ "" ∧
    ((∃ rest, domain = "[" +:+ rest) ∨
     (∃ host tld,
        domain = host +:+ "." +:+ tld ∧
        host ≠ "" ∧
        (2 ≤ String.length tld)%nat ∧
        all_chars letter_char tld = true)).
Proof.
  unfold isValidEmail. cbn [email_regex_test with_pattern].
  intros H%regex_test_matches. unfold email_pattern in H.
  inversion H as [| | ? ? l rest Hl Hrest | | | |]; subst.
  inversion Hrest as [| | ? ? at_ d Hat Hd | | | |]; subst.
  apply matches_lit in Hat. change (at_ = "@") in Hat. subst at_.
  exists l, d. split; [congruence |].
  split; [apply (matches_nonempty _ _ Hl); reflexivity |].
  inversion Hd as [| | | ? ? ? Hip | ? ? ? Hnamed | |]; subst.
  - left. unfold bracketed_address in Hip.
    inversion Hip as [| | ? ? b rest' Hb _ | | | |]; subst.
    apply matches_lit in Hb. change (b = "[") in Hb. subst b. eauto.
  - right. unfold named_domain in Hnamed.
    inversion Hnamed as [| | ? ? x tld Hx Htld | | | |]; subst.
    assert (Hends : x = "" ∨ ∃ h, h ≠ "" ∧ x = h +:+ ".").
    { apply (many_dotted_ends (many1 (Class label_char))).
      - intros p Hp. apply (matches_nonempty _ _ Hp). reflexivity.
      - unfold many1 in Hx at 1.
        inversion Hx as [| | ? ? s1 s2 Hfirst Hmore | | | |]; subst.
        constructor; assumption. }
    destruct Hends as [-> | (h & Hh & ->)].
    { exfalso. apply (matches_nonempty _ _ Hx); reflexivity. }
    exists h, tld. rewrite append_assoc. split; [reflexivity |]. split; [exact Hh |].
    unfold atleast2 in Htld.
    inversion Htld as [| | ? ? t1 t' Ht1 Ht' | | | |]; subst.
    inversion Ht' as [| | ? ? t2 t3 Ht2 Ht3 | | | |]; subst.
    apply matches_class_inv in Ht1 as (a1 & -> & Ha1).
    apply matches_class_inv in Ht2 as (a2 & -> & Ha2).
    apply matches_many_class in Ht3.
    change (String a1 "" +:+ (String a2 "" +:+ t3)) with (String a1 (String a2 t3)).
    cbn [String.length all_chars]. rewrite Ha1, Ha2.
    split; [lia | exact Ht3].
Qed.

(** X30: an address of the common shape is accepted: a local part of
    characters outside the special ones, an [@], a host of letters,
    digits and hyphens, a dot, and two letters or more (all of this
    read on the lower-case form). *)
Theorem isValidEmail_plain_address (email local host tld : string) :
  toLowerCase email = local +:+ "@" +:+ host +:+ "." +:+ tld →
  local ≠ "" →
  all_chars atom_char local = true →
  host ≠ "" →
  all_chars label_char host = true →
  (2 ≤ String.length tld)%nat →
  all_chars letter_char tld = true →
  isValidEmail email = true.
Proof.
  intros Hlow Hl Hlc Hh Hhc Hlen Htc.
  unfold isValidEmail. cbn [email_regex_test with_pattern].
  rewrite Hlow. apply regex_test_matches. unfold email_pattern.
  constructor.
  - apply matches_or_l. rewrite <- (append_empty_r local).
    constructor; [apply all_chars_many1; assumption | constructor].
  - change (matches (Seq at_sign (Or bracketed_address named_domain))
              ("@" +:+ (host +:+ "." +:+ tld))).
    constructor; [constructor; reflexivity |].
    apply matches_or_r. unfold named_domain. rewrite <- append_assoc.
    constructor.
    + rewrite <- (append_empty_r (host +:+ ".")).
      constructor; [| constructor].
      constructor; [apply all_chars_many1; assumption | constructor; reflexivity].
    + destruct tld as [| a1 [| a2 t]]; cbn [String.length] in Hlen; try lia.
      cbn [all_chars] in Htc.
      apply andb_true_iff in Htc as [Ha1 Htc].
      apply andb_true_iff in Htc as [Ha2 Htc].
      change (matches (atleast2 (Class letter_char))
                (String a1 "" +:+ (String a2 "" +:+ t))).
      constructor; [constructor; exact Ha1 |].
      constructor; [constructor; exact Ha2 | apply all_chars_many, Htc].
Qed.

Lemma isValidEmail_shape_witness :
  ∃ local domain,
    toLowerCase "Bob@Example.ORG" = local +:+ "@" +:+ domain ∧
    local ≠ "" ∧
    ((∃ rest, domain = "[" +:+ rest) ∨
     (∃ host tld,
        domain = host +:+ "." +:+ tld ∧
        host ≠ "" ∧
        (2 ≤ String.length tld)%nat ∧
        all_chars letter_char tld = true)).
Proof.
  apply (isValidEmail_shape "Bob@Example.ORG"). vm_compute. reflexivity.
Defined.

Lemma isValidEmail_plain_address_witness :
  isValidEmail "Bob@Example.ORG" = true.
Proof.
  apply (isValidEmail_plain_address "Bob@Example.ORG" "bob" "example" "org");
    try (vm_compute; reflexivity); try discriminate.
  cbn. lia.
Defined.

End Pattern.
